(** * Operation handle and wait loop of the go-sdk [operation] package

    A shallow embedding of [src/operation/operation.go]: the operation
    handle ([New], the accessors, [Poll]) and the polling loop
    ([waitInterval], [Wait], [WaitInterval]), followed by the properties
    established for them.

    Conventions of the embedding.
    - A Go [error] value is an [option error]; [None] is the nil error.
    - A nilable pointer is an [option].
    - [time.Duration] is a signed 64-bit count of nanoseconds, kept as a [Z]
      with the wrap-around of its arithmetic written out ([wrap64]).
    - A run-time panic is the [Panic] result.
    - The remote services, the timer and the context are the environment:
      the client answers the [t]-th poll of a wait, made under the
      caller's context, with a [Response], and the context tells, for the
      [t]-th blocking [select], whether [ctx.Done()] is received (and with
      which [ctx.Err()]) or the timer channel is.  What the code does to
      the environment is recorded as a list of [Event]s. *)

From Stdlib Require Import ZArith String Ascii List Bool Lia.
From stdpp Require Import gmap strings.
Import ListNotations.

Local Open Scope string_scope.
Local Open Scope Z_scope.

(** ** Protocol messages *)

(** [google.rpc.Status], the structured error recorded in an operation
    (the details list plays no role here). *)
Record RpcStatus := mkRpcStatus {
  rpc_code : Z;
  rpc_message : string
}.

(** Modelled from the spec: the status enumeration of the generated
    [doublecloud.v1.Operation] message, whose declaration is not among the
    sources ("terminal status (enum: running, done, invalid/cancelled)").
    The code names [Operation_STATUS_DONE] and [Operation_STATUS_INVALID]. *)
Inductive Operation_Status :=
| Operation_STATUS_INVALID
| Operation_STATUS_PENDING
| Operation_STATUS_DONE.

Definition Operation_Status_eqb (a b : Operation_Status) : bool :=
  match a, b with
  | Operation_STATUS_INVALID, Operation_STATUS_INVALID
  | Operation_STATUS_PENDING, Operation_STATUS_PENDING
  | Operation_STATUS_DONE, Operation_STATUS_DONE => true
  | _, _ => false
  end.

(** [type Proto = dc.Operation]: the snapshot of an operation.  The fields
    are named after the generated getters the code calls. *)
Record Proto := mkProto {
  GetId : string;
  GetDescription : string;
  GetCreatedBy : string;
  GetResourceId : string;
  GetCreateTime : Z;
  GetMetadata : gmap string string;
  GetStatus : Operation_Status;
  GetError : option RpcStatus
}.

(** ** Errors *)

(** The two errors a [context.Context] reports once it is done. *)
Inductive ctx_error := Canceled | DeadlineExceeded.

(** The error values the package handles: a gRPC status error, a context
    error, any other error, and the [sdkerrors] wrapper. *)
Inductive error :=
| StatusErr (code : Z) (msg : string)
| CtxErr (c : ctx_error)
| PlainErr (msg : string)
| errWithMessage (err : error) (message : string).

Definition codes_OK : Z := 0.
Definition codes_NotFound : Z := 5.

(** Modelled from the spec: [sdkerrors.WithMessagef] of [pkg/sdkerrors],
    which is not among the sources.  A nil error stays nil ("return no error
    if the operation's own recorded error is absent; otherwise return that
    recorded error", which [waitInterval] obtains from its last line), and a
    non-nil one is wrapped with the message, the original kept inside ("All
    returned errors must preserve the original underlying error"). *)
Definition WithMessagef (err : option error) (message : string) : option error :=
  match err with
  | None => None
  | Some e => Some (errWithMessage e message)
  end.

(** Modelled from the spec: the gRPC status of the [sdkerrors] wrapper,
    [pkg/sdkerrors] not being among the sources, is the status of the error
    it wraps ("All returned errors must preserve the original underlying
    error for programmatic inspection (e.g., code checks)").  The other
    cases are [status.FromError] of grpc, as far as its [ok] result and the
    code go: a status error carries its status, other errors carry none. *)
Fixpoint status_FromError (e : error) : option (Z * string) :=
  match e with
  | StatusErr c m => Some (c, m)
  | errWithMessage e' _ => status_FromError e'
  | CtxErr _ | PlainErr _ => None
  end.

(** The [Err] method of a grpc [Status], after [status.FromProto]: nil for
    the OK code, a status error otherwise. *)
Definition status_Err (st : RpcStatus) : option error :=
  if rpc_code st =? codes_OK then None
  else Some (StatusErr (rpc_code st) (rpc_message st)).

(** [shoudRetry] *)
Definition shoudRetry (err : error) : bool :=
  match status_FromError err with
  | Some (code, _) => code =? codes_NotFound
  | None => false
  end.

(** ** Identifier classification helpers *)

Definition CLICKHOUSE_OPERATION_PREFIX := "cho".
Definition KAFKA_OPERATION_PREFIX := "kfo".
Definition TRANSFER_OPERATION_PREFIX := "dtj".
Definition TRANSFER_ENDPOINTS_OPERATION_PREFIX := "dte".

(** [strings.HasPrefix s p] *)
Definition HasPrefix (s p : string) : bool := String.prefix p s.

Definition is_hex (c : ascii) : bool :=
  let n := nat_of_ascii c in
  ((48 <=? n) && (n <=? 57) || (65 <=? n) && (n <=? 70)
   || (97 <=? n) && (n <=? 102))%nat.

Definition ascii_lower (c : ascii) : ascii :=
  let n := nat_of_ascii c in
  if ((65 <=? n) && (n <=? 90))%nat then ascii_of_nat (n + 32) else c.

(** The 36 leading bytes are [xxxxxxxx-xxxx-xxxx-xxxx-xxxxxxxxxxxx]. *)
Definition hyphenated_hex (l : list ascii) : bool :=
  forallb is_hex (firstn 8 l)
  && forallb (Ascii.eqb "-") (firstn 1 (skipn 8 l))
  && forallb is_hex (firstn 4 (skipn 9 l))
  && forallb (Ascii.eqb "-") (firstn 1 (skipn 13 l))
  && forallb is_hex (firstn 4 (skipn 14 l))
  && forallb (Ascii.eqb "-") (firstn 1 (skipn 18 l))
  && forallb is_hex (firstn 4 (skipn 19 l))
  && forallb (Ascii.eqb "-") (firstn 1 (skipn 23 l))
  && forallb is_hex (firstn 12 (skipn 24 l)).

(** Whether [uuid.Parse] of github.com/google/uuid returns a nil error:
    the canonical 36-byte form, that form after [urn:uuid:] (45 bytes) or
    with one byte around it (38 bytes), or 32 hexadecimal digits. *)
Definition uuid_Parse_ok (s : string) : bool :=
  let l := list_ascii_of_string s in
  match List.length l with
  | 36%nat => hyphenated_hex l
  | 45%nat =>
      String.eqb (string_of_list_ascii (map ascii_lower (firstn 9 l))) "urn:uuid:"
      && hyphenated_hex (skipn 9 l)
  | 38%nat => hyphenated_hex (skipn 1 l)
  | 32%nat => forallb is_hex l
  | _ => false
  end.

(** ** The environment: client, responses, events *)

(** The four operation services a client value may implement. *)
Inductive Family := Clickhouse | Kafka | Transfer | Network.

(** [metadata.MD] *)
Abbreviation MD := (gmap string (list string)).

(** [metadata.MD.Get]; the key the code passes is already lower-case. *)
Definition MD_Get (md : MD) (k : string) : list string :=
  match md !! k with
  | Some vals => vals
  | None => []
  end.

(** The caller's context.  The code hands it to every query and reads it
    at the blocking [select] of poll number [t]: [ctx_done] is [Some e] when
    [ctx.Done()] is the case received there, [ctx.Err()] being [e], and
    [None] when the timer channel is. *)
Record Context := mkContext {
  ctx_done : nat -> option ctx_error
}.

(** What one [Get] call yields: the two results of the stub and the header
    metadata that [grpc.Header(&headers)] stores. *)
Record Response := mkResponse {
  r_state : option Proto;
  r_err : option error;
  r_header : MD
}.

(** [type Client = OperationServiceClient], an empty interface: the value
    may or may not implement each family's [OperationServiceClient]
    ([implements]); [Get f ctx id t] is the answer of family [f] to the
    request for [id] that poll number [t] makes under the context [ctx]. *)
Record Client := mkClient {
  implements : Family -> bool;
  Get : Family -> Context -> string -> nat -> Response
}.

(** What the code does to its environment, in program order. *)
Inductive Event :=
| EvGet (f : Family) (id : string)   (* a status query is issued *)
| EvRetry                            (* notFoundCount++ *)
| EvNewTimer (d : Z)                 (* o.newTimer(interval) *)
| EvTimerFired                       (* case <-wait() *)
| EvCtxDone (e : ctx_error)          (* case <-ctx.Done() *)
| EvStop.                            (* stop() *)

(** A result or a panic. *)
Inductive Result (A : Type) :=
| Ret (a : A)
| Panic (msg : string).
Arguments Ret {A} a.
Arguments Panic {A} msg.

Definition bind {A B} (r : Result A) (k : A -> Result B) : Result B :=
  match r with
  | Ret a => k a
  | Panic m => Panic m
  end.

Notation "'let!' x ':=' r 'in' k" := (bind r (fun x => k))
  (at level 10, x name, k at level 200).

(** ** The handle *)

(** [type Operation struct]; the [newTimer] field, always [defaultTimer]
    outside tests, is part of the environment ([Event], [Context]). *)
Record Operation := mkOperation {
  proto : Proto;
  client : Client
}.

(** [New] *)
Definition New (client : Client) (proto : option Proto) : Result Operation :=
  match proto with
  | None => Panic "nil operation"
  | Some p => Ret {| proto := p; client := client |}
  end.

Definition Id (o : Operation) : string := GetId (proto o).
Definition Description (o : Operation) : string := GetDescription (proto o).
Definition CreatedBy (o : Operation) : string := GetCreatedBy (proto o).
Definition ResourceId (o : Operation) : string := GetResourceId (proto o).
Definition CreatedAt (o : Operation) : Z := GetCreateTime (proto o).
Definition Metadata (o : Operation) : gmap string string := GetMetadata (proto o).

(** [ErrorStatus]: [status.FromProto] keeps code and message. *)
Definition ErrorStatus (o : Operation) : option RpcStatus := GetError (proto o).

(** [Error] *)
Definition Error (o : Operation) : option error :=
  match ErrorStatus o with
  | None => None
  | Some st => status_Err st
  end.

(** [Done] *)
Definition Done (o : Operation) : bool :=
  Operation_Status_eqb (GetStatus (proto o)) Operation_STATUS_DONE
  || Operation_Status_eqb (GetStatus (proto o)) Operation_STATUS_INVALID.

Definition Ok (o : Operation) : bool :=
  Done o && match GetError (proto o) with None => true | Some _ => false end.

Definition Failed (o : Operation) : bool :=
  Done o && match GetError (proto o) with None => false | Some _ => true end.

(** ** Poll *)

Definition unknown_type_msg (id : string) : string :=
  ("operation (id=" ++ id ++ ") unknown type")%string.

(** What a call of [Poll] leaves behind: the returned error, the handle,
    the header metadata received and the queries issued. *)
Record PollOut := mkPollOut {
  poll_err : option error;
  poll_op : Operation;
  poll_header : MD;
  poll_events : list Event
}.

(** [o.Client().(F.OperationServiceClient).Get(ctx, &F.GetOperationRequest{OperationId: o.Id()}, opts...)]:
    the type assertion panics when the client does not implement [f];
    otherwise the query is made under [ctx]. *)
Definition call_Get (o : Operation) (ctx : Context) (f : Family) (t : nat)
    : Result Response :=
  if implements (client o) f then Ret (Get (client o) f ctx (Id o) t)
  else Panic "interface conversion".

(** Lines 120-127 of [Poll], on the values of the function's [state] and
    [err] variables. *)
Definition Poll_finish (o : Operation) (state : option Proto)
    (err : option error) (hdr : MD) (evs : list Event) : PollOut :=
  match state with
  | None =>
      mkPollOut (WithMessagef err (unknown_type_msg (Id o))) o hdr evs
  | Some st =>
      match err with
      | Some e => mkPollOut (Some e) o hdr evs
      | None => mkPollOut None {| proto := st; client := client o |} hdr evs
      end
  end.

(** [Poll].  In the last branch [_, err := uuid.Parse(o.Id())] declares a
    new [err] in the scope of that [if]; the assignment [state, err = ...]
    in its body writes this inner variable, so the function's own [err] is
    still nil at line 120. *)
Definition Poll (o : Operation) (ctx : Context) (t : nat) : Result PollOut :=
  if HasPrefix (Id o) CLICKHOUSE_OPERATION_PREFIX then
    let! r := call_Get o ctx Clickhouse t in
    Ret (Poll_finish o (r_state r) (r_err r) (r_header r) [EvGet Clickhouse (Id o)])
  else if HasPrefix (Id o) KAFKA_OPERATION_PREFIX then
    let! r := call_Get o ctx Kafka t in
    Ret (Poll_finish o (r_state r) (r_err r) (r_header r) [EvGet Kafka (Id o)])
  else if HasPrefix (Id o) TRANSFER_OPERATION_PREFIX
          || HasPrefix (Id o) TRANSFER_ENDPOINTS_OPERATION_PREFIX then
    let! r := call_Get o ctx Transfer t in
    Ret (Poll_finish o (r_state r) (r_err r) (r_header r) [EvGet Transfer (Id o)])
  else if uuid_Parse_ok (Id o) then
    let! r := call_Get o ctx Network t in
    Ret (Poll_finish o (r_state r) None (r_header r) [EvGet Network (Id o)])
  else
    Ret (Poll_finish o None None ∅ []).

(** ** The wait loop *)

(** Signed 64-bit wrap-around, the arithmetic of [time.Duration]. *)
Definition wrap64 (z : Z) : Z := (z + 2 ^ 63) mod 2 ^ 64 - 2 ^ 63.

Definition Second : Z := 1000000000.
Definition DefaultPollInterval : Z := Second.
Definition pollIntervalMetadataKey := "x-operation-poll-interval".
Definition maxNotFoundRetry : Z := 3.

Definition digit_of (c : ascii) : option Z :=
  let n := nat_of_ascii c in
  if ((48 <=? n) && (n <=? 57))%nat then Some (Z.of_nat n - 48) else None.

Fixpoint parse_digits (s : string) (acc : Z) : option Z :=
  match s with
  | EmptyString => Some acc
  | String c s' =>
      match digit_of c with
      | Some d => parse_digits s' (acc * 10 + d)
      | None => None
      end
  end.

(** [strconv.Atoi] with a 64-bit [int]: an optional sign, then one or more
    decimal digits, and a value that fits; [None] is a non-nil error. *)
Definition Atoi (s : string) : option Z :=
  let '(neg, body) :=
    match s with
    | String "-" s' => (true, s')
    | String "+" s' => (false, s')
    | _ => (false, s)
    end in
  match body with
  | EmptyString => None
  | _ =>
      match parse_digits body 0 with
      | Some n =>
          let v := if neg then - n else n in
          if (- 2 ^ 63 <=? v) && (v <=? 2 ^ 63 - 1) then Some v else None
      | None => None
      end
  end.

(** Lines 166-172: the interval of one cycle. *)
Definition cycle_interval (pollInterval : Z) (headers : MD) : Z :=
  match MD_Get headers pollIntervalMetadataKey with
  | v :: _ =>
      match Atoi v with
      | Some i => wrap64 (i * Second)
      | None => pollInterval
      end
  | [] => pollInterval
  end.

Definition poll_fail_msg (id : string) : string :=
  ("operation (id=" ++ id ++ ") poll fail")%string.
Definition wait_context_done_msg (id : string) : string :=
  ("operation (id=" ++ id ++ ") wait context done")%string.
Definition failed_msg (id : string) : string :=
  ("operation (id=" ++ id ++ ") failed")%string.

(** How one pass through the loop body ends. *)
Inductive Next :=
| Continue                       (* back to the loop condition *)
| Break                          (* [break] at line 164 *)
| Return (err : option error)    (* a [return] inside the loop *)
| Crash (msg : string).          (* a panic *)

Record Step := mkStep {
  next : Next;
  s_op : Operation;
  s_count : Z;
  s_events : list Event
}.

(** Lines 155-162: what a poll error does to [notFoundCount]; [inr] is the
    [return] of line 160. *)
Definition absorb (notFoundCount : Z) (err : option error)
    : (Z * list Event) + error :=
  match err with
  | Some e =>
      if (notFoundCount <? maxNotFoundRetry) && shoudRetry e
      then inl (notFoundCount + 1, [EvRetry])
      else inr e
  | None => inl (notFoundCount, [])
  end.

(** Lines 153-182: the body of the loop, at poll number [t]. *)
Definition loop_body (ctx : Context) (pollInterval : Z) (o : Operation)
    (notFoundCount : Z) (t : nat) : Step :=
  match Poll o ctx t with
  | Panic m => mkStep (Crash m) o notFoundCount []
  | Ret p =>
      let o := poll_op p in
      match absorb notFoundCount (poll_err p) with
      | inr e =>
          mkStep (Return (WithMessagef (Some e) (poll_fail_msg (Id o))))
                 o notFoundCount (poll_events p)
      | inl (notFoundCount, retried) =>
          if Done o then
            mkStep Break o notFoundCount (poll_events p ++ retried)
          else
            let interval := cycle_interval pollInterval (poll_header p) in
            if interval <=? 0 then
              mkStep Continue o notFoundCount (poll_events p ++ retried)
            else
              match ctx_done ctx t with
              | None =>
                  mkStep Continue o notFoundCount
                    (poll_events p ++ retried
                     ++ [EvNewTimer interval; EvTimerFired])
              | Some e =>
                  mkStep
                    (Return (WithMessagef (Some (CtxErr e))
                               (wait_context_done_msg (Id o))))
                    o notFoundCount
                    (poll_events p ++ retried
                     ++ [EvNewTimer interval; EvCtxDone e; EvStop])
              end
      end
  end.

(** How a call of [waitInterval] ends; [OutOfFuel] is a loop still running
    when the fuel of the model is spent. *)
Inductive Outcome :=
| Returned (err : option error)
| Panicked (msg : string)
| OutOfFuel.

Record Run := mkRun {
  outcome : Outcome;
  final_op : Operation;
  final_count : Z;
  trace : list Event
}.

Definition emit (evs : list Event) (r : Run) : Run :=
  mkRun (outcome r) (final_op r) (final_count r) (evs ++ trace r).

(** Line 184, after the loop. *)
Definition after_loop (o : Operation) (notFoundCount : Z) : Run :=
  mkRun (Returned (WithMessagef (Error o) (failed_msg (Id o)))) o notFoundCount [].

(** The [for !o.Done()] loop from poll number [t] on, run for at most
    [fuel] passes. *)
Fixpoint wait_loop (fuel : nat) (ctx : Context) (pollInterval : Z)
    (o : Operation) (notFoundCount : Z) (t : nat) : Run :=
  if Done o then after_loop o notFoundCount
  else
    match fuel with
    | O => mkRun OutOfFuel o notFoundCount []
    | S fuel' =>
        let s := loop_body ctx pollInterval o notFoundCount t in
        emit (s_events s)
          match next s with
          | Continue =>
              wait_loop fuel' ctx pollInterval (s_op s) (s_count s) (S t)
          | Break => after_loop (s_op s) (s_count s)
          | Return err => mkRun (Returned err) (s_op s) (s_count s) []
          | Crash m => mkRun (Panicked m) (s_op s) (s_count s) []
          end
    end.

(** [waitInterval] *)
Definition waitInterval (fuel : nat) (o : Operation) (ctx : Context)
    (pollInterval : Z) : Run :=
  wait_loop fuel ctx pollInterval o 0 0.

(** [WaitInterval] *)
Definition WaitInterval (fuel : nat) (o : Operation) (ctx : Context)
    (pollInterval : Z) : Run :=
  waitInterval fuel o ctx pollInterval.

(** [Wait] *)
Definition Wait (fuel : nat) (o : Operation) (ctx : Context) : Run :=
  WaitInterval fuel o ctx DefaultPollInterval.

(** The first [k] passes of the loop from poll number [t], when each of
    them goes back to the loop condition: the handle and the counter the
    next pass starts from, and the events so far; [None] when the loop ends
    before. *)
Fixpoint passes (k : nat) (ctx : Context) (pollInterval : Z)
    (o : Operation) (notFoundCount : Z) (t : nat)
    : option (Operation * Z * list Event) :=
  match k with
  | O => Some (o, notFoundCount, [])
  | S k' =>
      if Done o then None
      else
        let s := loop_body ctx pollInterval o notFoundCount t in
        match next s with
        | Continue =>
            match passes k' ctx pollInterval (s_op s) (s_count s) (S t) with
            | Some (o', n', evs) => Some (o', n', (s_events s ++ evs)%list)
            | None => None
            end
        | _ => None
        end
  end.

(** ** The classification rule as the specification words it *)

(** An ordered list of (predicate, family) pairs, evaluated in this order;
    the first predicate that holds decides. *)
Definition classification_rules : list ((string -> bool) * Family) :=
  [ (fun id => HasPrefix id "cho", Clickhouse);
    (fun id => HasPrefix id "kfo", Kafka);
    (fun id => HasPrefix id "dtj", Transfer);
    (fun id => HasPrefix id "dte", Transfer);
    (uuid_Parse_ok, Network) ].

Fixpoint first_match (rules : list ((string -> bool) * Family)) (id : string)
    : option Family :=
  match rules with
  | [] => None
  | (holds, f) :: rest => if holds id then Some f else first_match rest id
  end.

Definition spec_classify (id : string) : option Family :=
  first_match classification_rules id.

(** ** Trace observations *)

Definition is_get (e : Event) : bool :=
  match e with EvGet _ _ => true | _ => false end.

Definition is_retry (e : Event) : bool :=
  match e with EvRetry => true | _ => false end.

Definition is_ctx_done (e : Event) : bool :=
  match e with EvCtxDone _ => true | _ => false end.

(** The number of status queries in a trace. *)
Definition count_gets (tr : list Event) : nat := List.length (List.filter is_get tr).

(** The number of absorbed poll failures in a trace. *)
Definition count_retries (tr : list Event) : nat := List.length (List.filter is_retry tr).

(** Whether some absorbed poll failure is directly followed by a timer. *)
Fixpoint sleeps_after_retry (tr : list Event) : bool :=
  match tr with
  | [] => false
  | EvRetry :: rest =>
      match rest with
      | EvNewTimer _ :: _ => true
      | _ => sleeps_after_retry rest
      end
  | _ :: rest => sleeps_after_retry rest
  end.

(** Whether every timer of a trace is created for a positive duration and
    is then either received or, after a receipt of [ctx.Done()], stopped as
    the last event, with no receipt or stop anywhere else. *)
Fixpoint timers_settled (tr : list Event) : bool :=
  match tr with
  | [] => true
  | EvNewTimer d :: rest =>
      (0 <? d)
      && match rest with
         | EvTimerFired :: rest' => timers_settled rest'
         | [EvCtxDone _; EvStop] => true
         | _ => false
         end
  | EvTimerFired :: _ | EvCtxDone _ :: _ | EvStop :: _ => false
  | _ :: rest => timers_settled rest
  end.

Definition is_timer (e : Event) : bool :=
  match e with
  | EvNewTimer _ | EvTimerFired | EvCtxDone _ | EvStop => true
  | _ => false
  end.

(** Poll number [t], made under [ctx], fails with the not-found error [e]. *)
Definition poll_fails_not_found (o : Operation) (ctx : Context) (t : nat)
    (e : error) : Prop :=
  exists p, Poll o ctx t = Ret p /\ poll_err p = Some e /\ shoudRetry e = true.

(** ** Sample handles and environments *)

Module Samples.

Definition snapshot (id : string) (st : Operation_Status)
    (e : option RpcStatus) : Proto :=
  mkProto id "create cluster" "alice" "res1" 1700000000 ∅ st e.

Definition running (id : string) : Response :=
  mkResponse (Some (snapshot id Operation_STATUS_PENDING None)) None ∅.

Definition done (id : string) : Response :=
  mkResponse (Some (snapshot id Operation_STATUS_DONE None)) None ∅.

Definition not_found : Response :=
  mkResponse None (Some (StatusErr codes_NotFound "operation not found")) ∅.

Definition with_header (r : Response) (v : string) : Response :=
  mkResponse (r_state r) (r_err r) {[ pollIntervalMetadataKey := [v] ]}.

(** A client implementing the four services that answers poll number [t]
    with the [t]-th response of a script, and with [last] after it,
    whatever the context. *)
Definition scripted (script : list Response) (last : Response) : Client :=
  mkClient (fun _ => true) (fun _ _ _ t => nth t script last).

Definition never_done : Context := mkContext (fun _ => None).

(** A context cancelled during the wait of poll number [n]. *)
Definition cancelled_at (n : nat) : Context :=
  mkContext (fun t => if (t =? n)%nat then Some Canceled else None).

Definition uuid_id := "3f2504e0-4f89-41d3-9a0c-0305e82c3301".

Definition handle (id : string) (c : Client) : Operation :=
  mkOperation (snapshot id Operation_STATUS_PENDING None) c.

(** The error [Poll] returns when the query of a prefix family fails with
    [not_found]. *)
Definition not_found_from_poll (id : string) : error :=
  errWithMessage (StatusErr codes_NotFound "operation not found")
    (unknown_type_msg id).

(** A clickhouse operation not yet visible to the first poll and done at
    the second. *)
Definition lagging : Operation :=
  handle "cho1" (scripted [not_found; done "cho1"] not_found).

(** A transfer operation that is running at the first poll and has failed
    with code 13 at the second. *)
Definition failing : Operation :=
  handle "dtj9"
    (scripted
       [running "dtj9";
        mkResponse
          (Some (snapshot "dtj9" Operation_STATUS_DONE
                   (Some (mkRpcStatus 13 "disk full"))))
          None ∅]
       not_found).

(** A kafka operation that keeps running. *)
Definition endless : Operation :=
  handle "kfo2" (scripted [] (running "kfo2")).

(** A done operation whose recorded error carries the OK code. *)
Definition done_with_ok_error : Operation :=
  mkOperation
    (snapshot "cho1" Operation_STATUS_DONE (Some (mkRpcStatus codes_OK "fine")))
    (scripted [] not_found).

(** A clickhouse operation whose first answer carries the header value
    [v] and whose second answer is done. *)
Definition hinted (v : string) : Operation :=
  handle "cho1" (scripted [with_header (running "cho1") v; done "cho1"] not_found).

(** A network operation, identified by a UUID, every query of which fails
    with NotFound. *)
Definition unseen_network : Operation :=
  handle uuid_id (scripted [] not_found).

(** A kafka operation that is running at the first poll and not found at
    the four polls after it. *)
Definition lost_later : Operation :=
  handle "kfo2" (scripted [running "kfo2"] not_found).

(** A clickhouse operation that keeps running and whose every answer asks,
    by its header, for an interval of 7 seconds. *)
Definition paced : Operation :=
  handle "cho1" (scripted [] (with_header (running "cho1") "7")).

(** A client that implements none of the four services. *)
Definition bare : Client :=
  mkClient (fun _ => false) (fun _ _ _ _ => not_found).

(** A response that carries a state together with an error. *)
Definition state_and_error (id : string) : Response :=
  mkResponse (Some (snapshot id Operation_STATUS_PENDING None))
    (Some (StatusErr 14 "unavailable")) ∅.

(** A response that fails with a status other than NotFound. *)
Definition unavailable : Response :=
  mkResponse None (Some (StatusErr 14 "unavailable")) ∅.

(** The handles [failing] goes through: before the first poll, after it,
    after the second. *)
Definition failing_stages (t : nat) : Operation :=
  match t with
  | O => failing
  | 1%nat =>
      mkOperation (snapshot "dtj9" Operation_STATUS_PENDING None) (client failing)
  | _ =>
      mkOperation
        (snapshot "dtj9" Operation_STATUS_DONE (Some (mkRpcStatus 13 "disk full")))
        (client failing)
  end.

End Samples.

(** ** Proof automation *)

(** Case analysis along the branches of [Poll]. *)
Ltac poll_branches :=
  unfold Poll, call_Get, Poll_finish, bind,
    CLICKHOUSE_OPERATION_PREFIX, KAFKA_OPERATION_PREFIX,
    TRANSFER_OPERATION_PREFIX, TRANSFER_ENDPOINTS_OPERATION_PREFIX in *;
  repeat match goal with
    | |- context [if ?b then _ else _] => destruct b eqn:?
    | |- context [match ?x with _ => _ end] => destruct x eqn:?
    | H : context [if ?b then _ else _] |- _ => destruct b eqn:?
    | H : context [match ?x with _ => _ end] |- _ => destruct x eqn:?
    end.

(** The result of a poll that returned, branch by branch. *)
Ltac poll_inv H :=
  poll_branches; try discriminate H;
  injection H as <-; simpl in *.

(** * Properties *)

(** ** Strings and messages *)

Lemma string_app_inv_head (s a b : string) :
  (s ++ a)%string = (s ++ b)%string -> a = b.
Proof.
  induction s as [|c s IH]; simpl; intros H.
  - exact H.
  - injection H as H. auto.
Qed.

Lemma poll_fail_msg_not_failed_msg (id : string) :
  poll_fail_msg id <> failed_msg id.
Proof.
  unfold poll_fail_msg, failed_msg. intros H.
  apply string_app_inv_head, string_app_inv_head in H. discriminate H.
Qed.

Lemma wait_context_done_msg_not_failed_msg (id : string) :
  wait_context_done_msg id <> failed_msg id.
Proof.
  unfold wait_context_done_msg, failed_msg. intros H.
  apply string_app_inv_head, string_app_inv_head in H. discriminate H.
Qed.

Lemma wait_context_done_msg_not_poll_fail_msg (id : string) :
  wait_context_done_msg id <> poll_fail_msg id.
Proof.
  unfold wait_context_done_msg, poll_fail_msg. intros H.
  apply string_app_inv_head, string_app_inv_head in H. discriminate H.
Qed.

(** ** The handle: [New] and [Poll] *)

(** C9. [New] panics exactly when the initial snapshot is nil, and for a
    non-nil snapshot it returns a handle that stores the snapshot and the
    client it was given. *)
Theorem New_panics_iff_nil (c : Client) (p : option Proto) :
  ((exists m, New c p = Panic m) <-> p = None)
  /\ (forall pr, New c (Some pr) = Ret (mkOperation pr c)
                 /\ proto (mkOperation pr c) = pr
                 /\ client (mkOperation pr c) = c).
Proof.
  split.
  - destruct p as [pr|]; simpl; split.
    + intros [m H]. discriminate H.
    + intros H. discriminate H.
    + reflexivity.
    + intros _. eexists. reflexivity.
  - intros pr. repeat split.
Qed.

(** The chain of tests in [Poll] is the dispatch on the first matching
    rule; the network branch hands a nil [err] to lines 120-127. *)
Lemma Poll_by_class (o : Operation) (ctx : Context) (t : nat) :
  Poll o ctx t
  = match spec_classify (Id o) with
    | Some Network =>
        let! r := call_Get o ctx Network t in
        Ret (Poll_finish o (r_state r) None (r_header r) [EvGet Network (Id o)])
    | Some f =>
        let! r := call_Get o ctx f t in
        Ret (Poll_finish o (r_state r) (r_err r) (r_header r) [EvGet f (Id o)])
    | None => Ret (Poll_finish o None None ∅ [])
    end.
Proof.
  unfold spec_classify, classification_rules, first_match, Poll,
    CLICKHOUSE_OPERATION_PREFIX, KAFKA_OPERATION_PREFIX,
    TRANSFER_OPERATION_PREFIX, TRANSFER_ENDPOINTS_OPERATION_PREFIX.
  destruct (HasPrefix (Id o) "cho"); [reflexivity|].
  destruct (HasPrefix (Id o) "kfo"); [reflexivity|].
  destruct (HasPrefix (Id o) "dtj"); [reflexivity|].
  destruct (HasPrefix (Id o) "dte"); [reflexivity|].
  destruct (uuid_Parse_ok (Id o)); reflexivity.
Qed.

(** C1. [Poll] selects the family by the first rule that matches the
    identifier, in the order cho, kfo, dtj, dte, UUID: it issues exactly
    one query, to that family and for that identifier (a client that does
    not implement the family makes the type assertion panic before any
    query); when no rule matches it issues no query, leaves the handle as
    it was and takes the unknown-type return with a nil [err]. *)
Theorem Poll_routes_by_first_match (o : Operation) (ctx : Context) (t : nat) :
  match spec_classify (Id o) with
  | Some f =>
      if implements (client o) f then
        exists p, Poll o ctx t = Ret p
                  /\ poll_events p = [EvGet f (Id o)]
                  /\ poll_header p = r_header (Get (client o) f ctx (Id o) t)
                  /\ (poll_op p = o
                      \/ r_state (Get (client o) f ctx (Id o) t)
                         = Some (proto (poll_op p)))
      else exists m, Poll o ctx t = Panic m
  | None =>
      Poll o ctx t
      = Ret (mkPollOut (WithMessagef None (unknown_type_msg (Id o))) o ∅ [])
  end.
Proof.
  rewrite Poll_by_class.
  destruct (spec_classify (Id o)) as [f|]; [|reflexivity].
  unfold call_Get.
  destruct f; (destruct (implements (client o) _); [|eexists; reflexivity]);
    simpl; eexists; (split; [reflexivity|]); unfold Poll_finish;
    destruct (r_state _); try destruct (r_err _); simpl; auto.
Qed.

(** A poll that returns an error leaves the handle as it was. *)
Lemma Poll_error_keeps_snapshot (o : Operation) (ctx : Context) (t : nat) (p : PollOut) (e : error) :
  Poll o ctx t = Ret p -> poll_err p = Some e -> poll_op p = o.
Proof.
  intros H He. poll_inv H; congruence.
Qed.

(** After a poll the snapshot is the old one or the state the one query
    returned, never a mixture, and the client is unchanged. *)
Lemma Poll_snapshot_old_or_queried (o : Operation) (ctx : Context) (t : nat) (p : PollOut) :
  Poll o ctx t = Ret p ->
  poll_op p = o
  \/ exists f, poll_events p = [EvGet f (Id o)]
               /\ r_state (Get (client o) f ctx (Id o) t) = Some (proto (poll_op p))
               /\ client (poll_op p) = client o.
Proof.
  intros H. poll_inv H; auto; right; eexists; repeat split; eauto.
Qed.

(** A poll issues at most one query, for the identifier of the handle. *)
Lemma Poll_events_shape (o : Operation) (ctx : Context) (t : nat) (p : PollOut) :
  Poll o ctx t = Ret p ->
  poll_events p = [] \/ exists f, poll_events p = [EvGet f (Id o)].
Proof.
  intros H. poll_inv H; eauto.
Qed.

(** A poll that returns an error has issued its query. *)
Lemma Poll_error_one_query (o : Operation) (ctx : Context) (t : nat) (p : PollOut) (e : error) :
  Poll o ctx t = Ret p -> poll_err p = Some e ->
  exists f, poll_events p = [EvGet f (Id o)].
Proof.
  intros H He. poll_inv H; try discriminate He; eauto.
Qed.

(** For the three prefix families the result of the query decides the
    returned error: a nil state gives the unknown-type wrapper around the
    query error, a state with an error gives that error, a state alone
    gives nil. *)
Lemma Poll_prefix_family_error (o : Operation) (ctx : Context) (t : nat) (p : PollOut) (f : Family) :
  spec_classify (Id o) = Some f -> f <> Network ->
  Poll o ctx t = Ret p ->
  poll_err p
  = match r_state (Get (client o) f ctx (Id o) t) with
    | None => WithMessagef (r_err (Get (client o) f ctx (Id o) t))
                (unknown_type_msg (Id o))
    | Some _ => r_err (Get (client o) f ctx (Id o) t)
    end.
Proof.
  intros Hc Hf H. rewrite Poll_by_class, Hc in H. unfold call_Get in H.
  destruct f; try congruence;
    (destruct (implements (client o) _); [|discriminate H]);
    simpl in H; injection H as <-; unfold Poll_finish;
    destruct (r_state _); try destruct (r_err _); reflexivity.
Qed.

(** For an identifier routed to the network family, and for one that no
    rule matches, [Poll] never returns an error. *)
Lemma Poll_no_error_outside_prefix_families (o : Operation) (ctx : Context) (t : nat) (p : PollOut) :
  spec_classify (Id o) = Some Network \/ spec_classify (Id o) = None ->
  Poll o ctx t = Ret p -> poll_err p = None.
Proof.
  intros Hc H. rewrite Poll_by_class in H. unfold call_Get in H.
  destruct Hc as [Hc|Hc]; rewrite Hc in H.
  - destruct (implements (client o) Network); [|discriminate H].
    simpl in H. injection H as <-. unfold Poll_finish.
    destruct (r_state _); reflexivity.
  - injection H as <-. reflexivity.
Qed.

(** A query of a prefix family that fails with a NotFound status and no
    state is a poll that fails with a not-found error. *)
Lemma query_not_found_fails_poll
    (o : Operation) (ctx : Context) (t : nat) (f : Family) (e : error) :
  spec_classify (Id o) = Some f -> f <> Network ->
  implements (client o) f = true ->
  r_state (Get (client o) f ctx (Id o) t) = None ->
  r_err (Get (client o) f ctx (Id o) t) = Some e ->
  shoudRetry e = true ->
  poll_fails_not_found o ctx t (errWithMessage e (unknown_type_msg (Id o))).
Proof.
  intros Hc Hf Hi Hs He Hr. unfold poll_fails_not_found.
  rewrite Poll_by_class, Hc. unfold call_Get.
  destruct f; try congruence; rewrite Hi; simpl;
    eexists; (split; [reflexivity|]); unfold Poll_finish;
    rewrite Hs, He; simpl; (split; [reflexivity|exact Hr]).
Qed.

(** C2, at two inputs.  A handle with a UUID identifier whose network
    query fails with NotFound: [Poll] issues the query and returns nil, the
    query error lost.  A handle with the identifier "xyz", which no rule
    matches: [Poll] issues no query and returns nil as well. *)
Theorem Poll_returns_nil_on_network_failure_and_unknown_type :
  let net := Samples.handle Samples.uuid_id (Samples.scripted [] Samples.not_found) in
  let unk := Samples.handle "xyz" (Samples.scripted [] Samples.not_found) in
  let ctx := Samples.never_done in
  (spec_classify (Id net) = Some Network
   /\ r_state (Get (client net) Network ctx (Id net) 0) = None
   /\ r_err (Get (client net) Network ctx (Id net) 0)
      = Some (StatusErr codes_NotFound "operation not found")
   /\ exists p, Poll net ctx 0 = Ret p
                /\ poll_err p = None
                /\ poll_events p = [EvGet Network (Id net)])
  /\ (spec_classify (Id unk) = None
      /\ exists p, Poll unk ctx 0 = Ret p
                   /\ poll_err p = None
                   /\ poll_events p = []).
Proof.
  simpl. repeat split; try reflexivity;
    eexists; (split; [vm_compute; reflexivity|]); split; reflexivity.
Qed.

(** C3, at two inputs.  For the same two handles [Poll] returns no error
    although the snapshot is not replaced by a queried state: the network
    query returned no state, and for "xyz" there was no query. *)
Theorem Poll_returns_nil_without_replacing_snapshot :
  let net := Samples.handle Samples.uuid_id (Samples.scripted [] Samples.not_found) in
  let unk := Samples.handle "xyz" (Samples.scripted [] Samples.not_found) in
  let ctx := Samples.never_done in
  (exists p, Poll net ctx 0 = Ret p
             /\ poll_err p = None
             /\ poll_op p = net
             /\ r_state (Get (client net) Network ctx (Id net) 0) = None)
  /\ (exists p, Poll unk ctx 0 = Ret p
                /\ poll_err p = None
                /\ poll_op p = unk
                /\ poll_events p = []).
Proof.
  simpl. split; eexists; (split; [vm_compute; reflexivity|]);
    repeat split; reflexivity.
Qed.

(** ** The wait loop: one pass *)

Lemma wait_loop_done fuel ctx pollInterval o notFoundCount t :
  Done o = true ->
  wait_loop fuel ctx pollInterval o notFoundCount t = after_loop o notFoundCount.
Proof.
  intros H. destruct fuel; simpl; rewrite H; reflexivity.
Qed.

Lemma wait_loop_pass fuel ctx pollInterval o notFoundCount t :
  Done o = false ->
  wait_loop (S fuel) ctx pollInterval o notFoundCount t
  = let s := loop_body ctx pollInterval o notFoundCount t in
    emit (s_events s)
      match next s with
      | Continue => wait_loop fuel ctx pollInterval (s_op s) (s_count s) (S t)
      | Break => after_loop (s_op s) (s_count s)
      | Return err => mkRun (Returned err) (s_op s) (s_count s) []
      | Crash m => mkRun (Panicked m) (s_op s) (s_count s) []
      end.
Proof.
  intros H. simpl. rewrite H. reflexivity.
Qed.

(** The pass after a poll that did not end the wait: the handle is not
    done, so the interval is resolved and the timer raced against the
    context. *)
Lemma loop_body_goes_on ctx pollInterval o notFoundCount t p count retried :
  Poll o ctx t = Ret p ->
  absorb notFoundCount (poll_err p) = inl (count, retried) ->
  Done (poll_op p) = false ->
  loop_body ctx pollInterval o notFoundCount t
  = let interval := cycle_interval pollInterval (poll_header p) in
    if interval <=? 0 then
      mkStep Continue (poll_op p) count (poll_events p ++ retried)
    else
      match ctx_done ctx t with
      | None =>
          mkStep Continue (poll_op p) count
            (poll_events p ++ retried ++ [EvNewTimer interval; EvTimerFired])
      | Some e =>
          mkStep
            (Return (Some (errWithMessage (CtxErr e)
                             (wait_context_done_msg (Id (poll_op p))))))
            (poll_op p) count
            (poll_events p ++ retried
             ++ [EvNewTimer interval; EvCtxDone e; EvStop])
      end.
Proof.
  intros HP Ha Hd. unfold loop_body. rewrite HP, Ha, Hd. reflexivity.
Qed.

(** A poll error that is not absorbed ends the wait at once. *)
Lemma loop_body_poll_fail ctx pollInterval o notFoundCount t p e :
  Poll o ctx t = Ret p ->
  poll_err p = Some e ->
  (notFoundCount <? maxNotFoundRetry) && shoudRetry e = false ->
  loop_body ctx pollInterval o notFoundCount t
  = mkStep (Return (Some (errWithMessage e (poll_fail_msg (Id o)))))
      o notFoundCount (poll_events p).
Proof.
  intros HP He Hb. unfold loop_body, absorb. rewrite HP, He, Hb.
  rewrite (Poll_error_keeps_snapshot _ _ _ _ _ HP He). reflexivity.
Qed.

Lemma absorb_not_found notFoundCount e :
  notFoundCount < maxNotFoundRetry -> shoudRetry e = true ->
  absorb notFoundCount (Some e) = inl (notFoundCount + 1, [EvRetry]).
Proof.
  intros Hn He. unfold absorb. rewrite He.
  apply Z.ltb_lt in Hn. rewrite Hn. reflexivity.
Qed.

(** The counter after a pass is the counter before plus the retries the
    pass recorded, and a pass issues at most one query. *)
Lemma loop_body_count ctx pollInterval o notFoundCount t :
  let s := loop_body ctx pollInterval o notFoundCount t in
  s_count s = notFoundCount + Z.of_nat (count_retries (s_events s))
  /\ (notFoundCount <= maxNotFoundRetry -> s_count s <= maxNotFoundRetry)
  /\ (count_gets (s_events s) <= 1)%nat.
Proof.
  unfold loop_body.
  destruct (Poll o ctx t) as [p|m] eqn:HP; simpl.
  2: { unfold count_retries, count_gets; simpl. repeat split; lia. }
  pose proof (Poll_events_shape _ _ _ _ HP) as Hev.
  assert (Hq : count_retries (poll_events p) = 0%nat
               /\ (count_gets (poll_events p) <= 1)%nat).
  { destruct Hev as [->|[f ->]]; unfold count_retries, count_gets; split; simpl; auto. }
  destruct Hq as [Hq Hg].
  assert (Hr : forall a b, count_retries (a ++ b) = (count_retries a + count_retries b)%nat).
  { intros a b. unfold count_retries. rewrite List.filter_app, List.length_app. reflexivity. }
  assert (Hgs : forall a b, count_gets (a ++ b) = (count_gets a + count_gets b)%nat).
  { intros a b. unfold count_gets. rewrite List.filter_app, List.length_app. reflexivity. }
  unfold absorb.
  destruct (poll_err p) as [e|].
  - destruct (notFoundCount <? maxNotFoundRetry) eqn:Hlt; simpl.
    + apply Z.ltb_lt in Hlt.
      destruct (shoudRetry e); simpl.
      * destruct (Done (poll_op p)); simpl.
        { rewrite Hr, Hgs, Hq; unfold count_retries, count_gets in *; simpl; repeat split; lia. }
        destruct (cycle_interval pollInterval (poll_header p) <=? 0); simpl.
        { rewrite Hr, Hgs, Hq; unfold count_retries, count_gets in *; simpl; repeat split; lia. }
        destruct (ctx_done ctx t); simpl;
          rewrite Hr, Hgs, Hq; unfold count_retries, count_gets in *; simpl; repeat split; lia.
      * rewrite Hq. repeat split; lia.
    + rewrite Hq. repeat split; lia.
  - destruct (Done (poll_op p)); simpl.
    { rewrite Hr, Hgs, Hq; unfold count_retries, count_gets in *; simpl; repeat split; lia. }
    destruct (cycle_interval pollInterval (poll_header p) <=? 0); simpl.
    { rewrite Hr, Hgs, Hq; unfold count_retries, count_gets in *; simpl; repeat split; lia. }
    destruct (ctx_done ctx t); simpl;
      rewrite Hr, Hgs, Hq; unfold count_retries, count_gets in *; simpl; repeat split; lia.
Qed.

Lemma count_retries_app (a b : list Event) :
  count_retries (a ++ b) = (count_retries a + count_retries b)%nat.
Proof.
  unfold count_retries. rewrite List.filter_app, List.length_app. reflexivity.
Qed.

Lemma count_gets_app (a b : list Event) :
  count_gets (a ++ b) = (count_gets a + count_gets b)%nat.
Proof.
  unfold count_gets. rewrite List.filter_app, List.length_app. reflexivity.
Qed.

(** Whether the handle is done after a pass tells how the pass ended. *)
Lemma loop_body_op_done ctx pollInterval o notFoundCount t :
  Done o = false ->
  let s := loop_body ctx pollInterval o notFoundCount t in
  match next s with
  | Break => Done (s_op s) = true
  | _ => Done (s_op s) = false
  end.
Proof.
  intros Hd. unfold loop_body.
  destruct (Poll o ctx t) as [p|m] eqn:HP; simpl; [|exact Hd].
  destruct (absorb notFoundCount (poll_err p)) as [[c r]|e] eqn:Ha.
  - destruct (Done (poll_op p)) eqn:Hd1; simpl; [exact Hd1|].
    destruct (cycle_interval pollInterval (poll_header p) <=? 0); simpl;
      [exact Hd1|].
    destruct (ctx_done ctx t); simpl; exact Hd1.
  - simpl. unfold absorb in Ha.
    destruct (poll_err p) as [e'|] eqn:He; [|discriminate Ha].
    rewrite (Poll_error_keeps_snapshot _ _ _ _ _ HP He). exact Hd.
Qed.

(** ** The wait loop: whole runs *)

(** The counter at the end of a run is the counter at its start plus the
    number of absorbed failures, and it never exceeds the bound. *)
Lemma wait_loop_count fuel ctx pollInterval :
  forall o notFoundCount t,
  let r := wait_loop fuel ctx pollInterval o notFoundCount t in
  final_count r = notFoundCount + Z.of_nat (count_retries (trace r))
  /\ (notFoundCount <= maxNotFoundRetry -> final_count r <= maxNotFoundRetry).
Proof.
  induction fuel as [|fuel IH]; intros o n t.
  - simpl. destruct (Done o); simpl; unfold count_retries; simpl; lia.
  - destruct (Done o) eqn:Hd.
    + rewrite wait_loop_done by exact Hd. simpl.
      unfold count_retries; simpl; lia.
    + rewrite wait_loop_pass by exact Hd.
      destruct (loop_body_count ctx pollInterval o n t) as (Hc & Hb & _).
      cbv zeta in *.
      destruct (next (loop_body ctx pollInterval o n t));
        simpl; rewrite count_retries_app;
        try (unfold count_retries at 2; simpl; lia).
      specialize (IH (s_op (loop_body ctx pollInterval o n t))
                     (s_count (loop_body ctx pollInterval o n t)) (S t)).
      cbv zeta in IH. lia.
Qed.

(** A run that ends with the handle done returns what line 184 returns. *)
Lemma wait_loop_done_outcome fuel ctx pollInterval :
  forall o notFoundCount t,
  let r := wait_loop fuel ctx pollInterval o notFoundCount t in
  Done (final_op r) = true ->
  outcome r
  = Returned (WithMessagef (Error (final_op r)) (failed_msg (Id (final_op r)))).
Proof.
  induction fuel as [|fuel IH]; intros o n t.
  - simpl. destruct (Done o) eqn:Hd; simpl; [reflexivity|congruence].
  - destruct (Done o) eqn:Hd.
    + rewrite wait_loop_done by exact Hd. reflexivity.
    + rewrite wait_loop_pass by exact Hd.
      pose proof (loop_body_op_done ctx pollInterval o n t Hd) as Hs.
      cbv zeta in *.
      destruct (next (loop_body ctx pollInterval o n t)); simpl;
        try congruence.
      apply IH.
Qed.

(** One absorbed not-found failure: the loop goes on to the next poll with
    the counter incremented, having issued one query. *)
Lemma wait_loop_absorbs fuel ctx pollInterval o notFoundCount t e :
  Done o = false ->
  poll_fails_not_found o ctx t e ->
  notFoundCount < maxNotFoundRetry ->
  ctx_done ctx t = None ->
  exists evs,
    wait_loop (S fuel) ctx pollInterval o notFoundCount t
    = emit evs (wait_loop fuel ctx pollInterval o (notFoundCount + 1) (S t))
    /\ count_gets evs = 1%nat /\ count_retries evs = 1%nat.
Proof.
  intros Hd (p & HP & He & Hs) Hn Hc.
  pose proof (Poll_error_keeps_snapshot _ _ _ _ _ HP He) as Ho.
  destruct (Poll_error_one_query _ _ _ _ _ HP He) as [f Hev].
  rewrite wait_loop_pass by exact Hd.
  rewrite (loop_body_goes_on ctx pollInterval o notFoundCount t p
             (notFoundCount + 1) [EvRetry] HP).
  2: { rewrite He. apply absorb_not_found; assumption. }
  2: { rewrite Ho. exact Hd. }
  cbv zeta. rewrite Hc, Ho, Hev.
  destruct (cycle_interval pollInterval (poll_header p) <=? 0); simpl;
    eexists; repeat split.
Qed.

(** A not-found failure met with the budget spent ends the wait. *)
Lemma wait_loop_budget_spent fuel ctx pollInterval o notFoundCount t e :
  Done o = false ->
  poll_fails_not_found o ctx t e ->
  maxNotFoundRetry <= notFoundCount ->
  exists f,
    wait_loop (S fuel) ctx pollInterval o notFoundCount t
    = mkRun (Returned (Some (errWithMessage e (poll_fail_msg (Id o)))))
        o notFoundCount [EvGet f (Id o)].
Proof.
  intros Hd (p & HP & He & Hs) Hn.
  destruct (Poll_error_one_query _ _ _ _ _ HP He) as [f Hev].
  exists f.
  rewrite wait_loop_pass by exact Hd.
  rewrite (loop_body_poll_fail ctx pollInterval o notFoundCount t p e HP He).
  2: { apply Z.ltb_ge in Hn. rewrite Hn. reflexivity. }
  simpl. rewrite Hev. reflexivity.
Qed.

(** The not-found failures of the network family never reach the loop: a
    wait on a handle with a UUID identifier whose every query fails with
    NotFound is still running whatever the fuel, one query per pass and
    nothing absorbed. *)
Lemma network_query_failures_never_surface (fuel : nat) :
  forall notFoundCount t,
  let r := wait_loop fuel Samples.never_done Second Samples.unseen_network
             notFoundCount t in
  outcome r = OutOfFuel
  /\ final_count r = notFoundCount
  /\ final_op r = Samples.unseen_network
  /\ count_gets (trace r) = fuel
  /\ count_retries (trace r) = 0%nat.
Proof.
  induction fuel as [|fuel IH]; intros n t; cbv zeta.
  - repeat split.
  - rewrite wait_loop_pass by reflexivity.
    assert (Hb : loop_body Samples.never_done Second Samples.unseen_network n t
                 = mkStep Continue Samples.unseen_network n
                     [EvGet Network Samples.uuid_id;
                      EvNewTimer Second; EvTimerFired]).
    { unfold loop_body.
      replace (Poll Samples.unseen_network Samples.never_done t)
        with (Ret (mkPollOut None Samples.unseen_network
                     ∅ [EvGet Network Samples.uuid_id]))
        by (destruct t; reflexivity).
      reflexivity. }
    rewrite Hb. cbv zeta.
    destruct (IH n (S t)) as (I1 & I2 & I3 & I4 & I5).
    unfold emit. cbn [next s_op s_count s_events outcome final_op final_count trace].
    rewrite count_gets_app, count_retries_app, I4, I5.
    repeat split; assumption.
Qed.

(** ** The not-found retry budget *)

(** C4, at a failing input.  A wait on a handle with a UUID identifier
    whose every query fails with NotFound: each pass issues one query, no
    failure is absorbed or returned, and after four, or any number of,
    consecutive NotFound failures the wait has not returned a poll-fail
    error but is still polling. *)
Theorem network_not_found_failures_never_end_wait (fuel : nat) :
  let o := Samples.unseen_network in
  let ctx := Samples.never_done in
  let r := Wait fuel o ctx in
  spec_classify (Id o) = Some Network
  /\ (forall t,
        r_state (Get (client o) Network ctx (Id o) t) = None
        /\ r_err (Get (client o) Network ctx (Id o) t)
           = Some (StatusErr codes_NotFound "operation not found"))
  /\ outcome r = OutOfFuel
  /\ final_op r = o
  /\ count_gets (trace r) = fuel
  /\ count_retries (trace r) = 0%nat.
Proof.
  cbv zeta. split; [reflexivity|]. split.
  - intros t. destruct t; split; reflexivity.
  - unfold Wait, WaitInterval, waitInterval.
    destruct (network_query_failures_never_surface fuel 0 0%nat)
      as (H1 & _ & H3 & H4 & H5).
    repeat split; assumption.
Qed.

(** The budget runs out: from a counter of [3 - m], [m] absorbed not-found
    failures and one more end the wait at the last of them. *)
Lemma wait_loop_exhausts_budget (m : nat) :
  forall fuel ctx pollInterval o notFoundCount lo e,
  Done o = false ->
  notFoundCount + Z.of_nat m = maxNotFoundRetry ->
  (forall t, (lo <= t < lo + m)%nat ->
     exists e', poll_fails_not_found o ctx t e') ->
  poll_fails_not_found o ctx (lo + m) e ->
  (forall t, (lo <= t < lo + m)%nat -> ctx_done ctx t = None) ->
  let r := wait_loop (S m + fuel) ctx pollInterval o notFoundCount lo in
  outcome r = Returned (Some (errWithMessage e (poll_fail_msg (Id o))))
  /\ final_op r = o
  /\ final_count r = maxNotFoundRetry
  /\ count_gets (trace r) = S m
  /\ count_retries (trace r) = m.
Proof.
  induction m as [|m IH];
    intros fuel ctx pollInterval o n lo e Hd Hn Hf Hl Hc; cbv zeta.
  - replace (lo + 0)%nat with lo in Hl by lia.
    change (1 + fuel)%nat with (S fuel).
    destruct (wait_loop_budget_spent fuel ctx pollInterval o n lo e Hd Hl
                ltac:(lia)) as (f & E).
    rewrite E. simpl. repeat split. lia.
  - destruct (Hf lo ltac:(lia)) as [e' Hfe].
    change (S (S m) + fuel)%nat with (S (S m + fuel)).
    destruct (wait_loop_absorbs (S m + fuel) ctx pollInterval o n lo e'
                Hd Hfe ltac:(lia) (Hc lo ltac:(lia)))
      as (evs & E & G & R).
    rewrite E.
    specialize (IH fuel ctx pollInterval o (n + 1) (S lo) e Hd ltac:(lia)).
    replace (S lo + m)%nat with (lo + S m)%nat in IH by lia.
    destruct IH as (I1 & I2 & I3 & I4 & I5); try assumption.
    + intros t Ht. apply Hf. lia.
    + intros t Ht. apply Hc. lia.
    + unfold emit. cbn [outcome final_op final_count trace].
      rewrite count_gets_app, count_retries_app, G, R, I4, I5.
      repeat split; assumption.
Qed.

(** C10. The not-found budget is cumulative over a wait: in every run of
    [waitInterval] the counter ends as the number of failures absorbed in
    the whole run, which is at most three; a pass increments the counter
    exactly when its poll fails with a not-found error while the counter is
    below three, and a pass whose poll succeeds hands the counter on
    unchanged, so nothing resets it. *)
Theorem not_found_budget_is_cumulative
    (fuel : nat) (o : Operation) (ctx : Context) (pollInterval : Z) :
  let r := waitInterval fuel o ctx pollInterval in
  final_count r = Z.of_nat (count_retries (trace r))
  /\ (count_retries (trace r) <= 3)%nat
  /\ (forall o' notFoundCount t p,
        Poll o' ctx t = Ret p ->
        s_count (loop_body ctx pollInterval o' notFoundCount t)
        = match poll_err p with
          | Some e =>
              if (notFoundCount <? 3) && shoudRetry e
              then notFoundCount + 1 else notFoundCount
          | None => notFoundCount
          end).
Proof.
  cbv zeta. unfold waitInterval.
  destruct (wait_loop_count fuel ctx pollInterval o 0 0) as [Hc Hb].
  cbv zeta in Hc, Hb. unfold maxNotFoundRetry in Hb.
  split; [lia|]. split; [lia|].
  intros o' n t p HP. unfold loop_body, absorb, maxNotFoundRetry. rewrite HP.
  destruct (poll_err p) as [e|];
    [destruct ((n <? 3) && shoudRetry e); [|reflexivity]|];
    simpl;
    (destruct (Done (poll_op p)); [reflexivity|]);
    (destruct (cycle_interval pollInterval (poll_header p) <=? 0);
     [reflexivity|]);
    destruct (ctx_done ctx t); reflexivity.
Qed.

Lemma not_found_budget_is_cumulative_witness :
  let r := waitInterval 9 Samples.lagging Samples.never_done Second in
  final_count r = 1
  /\ count_retries (trace r) = 1%nat
  /\ s_count (loop_body Samples.never_done Second Samples.lagging 0 0) = 0 + 1.
Proof.
  cbv zeta.
  destruct (not_found_budget_is_cumulative 9 Samples.lagging
              Samples.never_done Second) as (H1 & _ & H3).
  cbv zeta in H1.
  split; [rewrite H1; reflexivity|]. split; [reflexivity|].
  exact (H3 Samples.lagging 0 0%nat
           (mkPollOut (Some (Samples.not_found_from_poll "cho1"))
              Samples.lagging ∅ [EvGet Clickhouse "cho1"])
           eq_refl).
Defined.

(** Not-found failures separated by successful polls: the fourth one ends
    the wait at the seventh poll. *)
Example budget_spans_successful_polls :
  let o := Samples.handle "kfo7"
             (Samples.scripted
                [Samples.not_found; Samples.running "kfo7";
                 Samples.not_found; Samples.running "kfo7";
                 Samples.not_found; Samples.running "kfo7"]
                Samples.not_found) in
  let r := waitInterval 20 o Samples.never_done 0 in
  outcome r
  = Returned (Some (errWithMessage
                      (errWithMessage
                         (StatusErr codes_NotFound "operation not found")
                         (unknown_type_msg "kfo7"))
                      (poll_fail_msg "kfo7")))
  /\ count_gets (trace r) = 7%nat
  /\ final_count r = 3.
Proof.
  vm_compute. repeat split.
Qed.

(** C5, as stated, fails: after the absorbed not-found failure of the
    first poll the loop creates a timer for the base interval and waits for
    it before the second query. *)
Lemma absorbed_not_found_sleeps_counterexample :
  let o := Samples.handle "cho1"
             (Samples.scripted [Samples.not_found; Samples.done "cho1"]
                Samples.not_found) in
  let r := WaitInterval 2 o Samples.never_done Second in
  poll_fails_not_found o Samples.never_done 0
    (errWithMessage (StatusErr codes_NotFound "operation not found")
       (unknown_type_msg "cho1"))
  /\ trace r
     = [EvGet Clickhouse "cho1"; EvRetry; EvNewTimer 1000000000; EvTimerFired;
        EvGet Clickhouse "cho1"]
  /\ sleeps_after_retry (trace r) = true.
Proof.
  cbv zeta. split; [|split].
  - eexists. split; [|split]; reflexivity.
  - vm_compute. reflexivity.
  - vm_compute. reflexivity.
Qed.

(** C5, amended.  When a poll fails with a not-found error and the counter
    is below 3, the loop increments the counter and goes on as after any
    poll that leaves the operation not done: it waits on a timer for the
    interval of the cycle before the next query, and polls again without a
    wait only when that interval is not positive. *)
Theorem absorbed_not_found_waits_for_the_interval
    (fuel : nat) (ctx : Context) (pollInterval : Z) (o : Operation)
    (notFoundCount : Z) (t : nat) (p : PollOut) (e : error) :
  Done o = false ->
  Poll o ctx t = Ret p ->
  poll_err p = Some e ->
  shoudRetry e = true ->
  notFoundCount < maxNotFoundRetry ->
  let interval := cycle_interval pollInterval (poll_header p) in
  wait_loop (S fuel) ctx pollInterval o notFoundCount t
  = if interval <=? 0 then
      emit (poll_events p ++ [EvRetry])
        (wait_loop fuel ctx pollInterval o (notFoundCount + 1) (S t))
    else
      match ctx_done ctx t with
      | None =>
          emit (poll_events p ++ [EvRetry; EvNewTimer interval; EvTimerFired])
            (wait_loop fuel ctx pollInterval o (notFoundCount + 1) (S t))
      | Some ce =>
          mkRun (Returned (Some (errWithMessage (CtxErr ce)
                                   (wait_context_done_msg (Id o)))))
            o (notFoundCount + 1)
            (poll_events p ++ [EvRetry; EvNewTimer interval; EvCtxDone ce; EvStop])
      end.
Proof.
  intros Hd HP He Hs Hn.
  pose proof (Poll_error_keeps_snapshot _ _ _ _ _ HP He) as Ho.
  rewrite wait_loop_pass by exact Hd.
  rewrite (loop_body_goes_on ctx pollInterval o notFoundCount t p
             (notFoundCount + 1) [EvRetry] HP).
  2: { rewrite He. apply absorb_not_found; assumption. }
  2: { rewrite Ho. exact Hd. }
  cbv zeta. rewrite Ho.
  destruct (cycle_interval pollInterval (poll_header p) <=? 0);
    [reflexivity|].
  destruct (ctx_done ctx t); simpl; [|reflexivity].
  unfold emit. simpl. rewrite app_nil_r. reflexivity.
Qed.

Lemma absorbed_not_found_waits_for_the_interval_witness :
  let o := Samples.lagging in
  let e := Samples.not_found_from_poll "cho1" in
  let p := mkPollOut (Some e) o ∅ [EvGet Clickhouse "cho1"] in
  Done o = false
  /\ Poll o Samples.never_done 0 = Ret p
  /\ shoudRetry e = true
  /\ 0 < maxNotFoundRetry
  /\ wait_loop 2 Samples.never_done Second o 0 0
     = emit [EvGet Clickhouse "cho1"; EvRetry; EvNewTimer Second; EvTimerFired]
         (wait_loop 1 Samples.never_done Second o (0 + 1) 1).
Proof.
  cbv zeta.
  split; [reflexivity|]. split; [reflexivity|]. split; [reflexivity|].
  split; [reflexivity|].
  exact (absorbed_not_found_waits_for_the_interval 1 Samples.never_done Second
           Samples.lagging 0 0%nat
           (mkPollOut (Some (Samples.not_found_from_poll "cho1"))
              Samples.lagging ∅ [EvGet Clickhouse "cho1"])
           (Samples.not_found_from_poll "cho1")
           eq_refl eq_refl eq_refl eq_refl eq_refl).
Defined.

(** ** The interval of a cycle *)

Lemma wrap64_small (z : Z) :
  - 2 ^ 63 <= z < 2 ^ 63 -> wrap64 z = z.
Proof.
  intros H. unfold wrap64.
  change (2 ^ 63) with 9223372036854775808 in *.
  change (2 ^ 64) with 18446744073709551616.
  rewrite Z.mod_small; lia.
Qed.

(** C6, as stated, fails: the header value 9223372037 is present and
    parses, but the interval of the cycle is not 9223372037 seconds; its
    nanosecond count wraps to a negative duration, and the loop polls
    again without any wait. *)
Lemma poll_interval_header_overflow_counterexample :
  let hdr : MD := {[ pollIntervalMetadataKey := ["9223372037"] ]} in
  let r := WaitInterval 2 (Samples.hinted "9223372037") Samples.never_done Second in
  MD_Get hdr pollIntervalMetadataKey = ["9223372037"]
  /\ Atoi "9223372037" = Some 9223372037
  /\ cycle_interval Second hdr = -9223372036709551616
  /\ cycle_interval Second hdr <> 9223372037 * Second
  /\ trace r = [EvGet Clickhouse "cho1"; EvGet Clickhouse "cho1"].
Proof.
  cbv zeta. repeat split; try (vm_compute; reflexivity).
  vm_compute. discriminate.
Qed.

(** C6, amended.  The interval of a cycle is the first value of the
    response header [x-operation-poll-interval] read as a count of seconds
    when the header is present, parses as an optionally signed decimal
    integer and lies between -9223372036 and 9223372036 (so that its
    nanosecond count fits the 64-bit duration), and the caller's base
    interval when the header is absent or does not parse.  When the
    interval is not positive the loop goes to the next poll without
    creating a timer; otherwise the timer it creates is for that interval. *)
Theorem cycle_interval_from_header_or_base :
  (forall pollInterval (hdr : MD) v vs i,
      MD_Get hdr pollIntervalMetadataKey = v :: vs ->
      Atoi v = Some i ->
      -9223372036 <= i <= 9223372036 ->
      cycle_interval pollInterval hdr = i * Second)
  /\ (forall pollInterval (hdr : MD),
        MD_Get hdr pollIntervalMetadataKey = [] ->
        cycle_interval pollInterval hdr = pollInterval)
  /\ (forall pollInterval (hdr : MD) v vs,
        MD_Get hdr pollIntervalMetadataKey = v :: vs ->
        Atoi v = None ->
        cycle_interval pollInterval hdr = pollInterval)
  /\ (forall fuel ctx pollInterval o notFoundCount t p count retried,
        Done o = false ->
        Poll o ctx t = Ret p ->
        absorb notFoundCount (poll_err p) = inl (count, retried) ->
        Done (poll_op p) = false ->
        let interval := cycle_interval pollInterval (poll_header p) in
        (interval <= 0 ->
         wait_loop (S fuel) ctx pollInterval o notFoundCount t
         = emit (poll_events p ++ retried)
             (wait_loop fuel ctx pollInterval (poll_op p) count (S t)))
        /\ (0 < interval ->
            exists rest : list Event,
              trace (wait_loop (S fuel) ctx pollInterval o notFoundCount t)
              = (poll_events p ++ retried ++ EvNewTimer interval :: rest)%list)).
Proof.
  split; [|split; [|split]].
  - intros pollInterval hdr v vs i Hg Ha Hi.
    unfold cycle_interval. rewrite Hg, Ha.
    apply wrap64_small. unfold Second.
    change (2 ^ 63) with 9223372036854775808. lia.
  - intros pollInterval hdr Hg. unfold cycle_interval. rewrite Hg. reflexivity.
  - intros pollInterval hdr v vs Hg Ha.
    unfold cycle_interval. rewrite Hg, Ha. reflexivity.
  - intros fuel ctx pollInterval o n t p count retried Hd HP Ha Hd1.
    cbv zeta. rewrite wait_loop_pass by exact Hd.
    rewrite (loop_body_goes_on ctx pollInterval o n t p count retried HP Ha Hd1).
    cbv zeta. split; intros Hi.
    + apply Z.leb_le in Hi. rewrite Hi. reflexivity.
    + apply Z.leb_gt in Hi. rewrite Hi.
      destruct (ctx_done ctx t); simpl; rewrite <- !app_assoc; simpl;
        eexists; reflexivity.
Qed.

Lemma cycle_interval_from_header_or_base_witness :
  let hdr : MD := {[ pollIntervalMetadataKey := ["7"; "9"] ]} in
  let o := Samples.hinted "7" in
  (MD_Get hdr pollIntervalMetadataKey = ["7"; "9"]
   /\ Atoi "7" = Some 7
   /\ cycle_interval Second hdr = 7 * Second)
  /\ cycle_interval Second ∅ = Second
  /\ (Atoi "soon" = None
      /\ cycle_interval Second {[ pollIntervalMetadataKey := ["soon"] ]} = Second)
  /\ (Done o = false
      /\ exists rest : list Event,
           trace (wait_loop 2 Samples.never_done Second o 0 0)
           = ([EvGet Clickhouse "cho1"] ++ [] ++ EvNewTimer (7 * Second) :: rest)%list).
Proof.
  cbv zeta.
  destruct cycle_interval_from_header_or_base as (H1 & H2 & H3 & H4).
  split; [|split; [|split]].
  - split; [reflexivity|]. split; [reflexivity|].
    apply (H1 Second {[ pollIntervalMetadataKey := ["7"; "9"] ]} "7" ["9"] 7);
      [reflexivity|reflexivity|lia].
  - apply H2. reflexivity.
  - split; [reflexivity|].
    apply (H3 Second {[ pollIntervalMetadataKey := ["soon"] ]} "soon" []);
      reflexivity.
  - split; [reflexivity|].
    refine (proj2 (H4 1%nat Samples.never_done Second (Samples.hinted "7") 0 0%nat
                    (mkPollOut None
                       (mkOperation
                          (Samples.snapshot "cho1" Operation_STATUS_PENDING None)
                          (client (Samples.hinted "7")))
                       {[ pollIntervalMetadataKey := ["7"] ]}
                       [EvGet Clickhouse "cho1"])
                    0 [] eq_refl eq_refl eq_refl eq_refl) _).
    vm_compute. reflexivity.
Defined.

(** ** Terminal states *)

(** C7, as stated, fails: the handle is done and a recorded error is
    present, with the OK code, yet the wait returns no error. *)
Lemma done_with_ok_coded_error_counterexample :
  let o := Samples.done_with_ok_error in
  Done o = true
  /\ GetError (proto o) = Some (mkRpcStatus codes_OK "fine")
  /\ outcome (Wait 0 o Samples.never_done) = Returned None.
Proof.
  cbv zeta. repeat split.
Qed.

(** C7, amended.  A wait that ends with the handle done returns no error
    when the recorded error is absent or carries the OK code, and otherwise
    an error that wraps the recorded error (its code and message) with the
    failed message, which differs from the poll-fail message of a query
    failure. *)
Theorem done_returns_recorded_error
    (fuel : nat) (o : Operation) (ctx : Context) (pollInterval : Z) :
  let r := WaitInterval fuel o ctx pollInterval in
  Done (final_op r) = true ->
  outcome r
  = Returned
      match GetError (proto (final_op r)) with
      | None => None
      | Some st =>
          if rpc_code st =? codes_OK then None
          else Some (errWithMessage (StatusErr (rpc_code st) (rpc_message st))
                       (failed_msg (Id (final_op r))))
      end
  /\ failed_msg (Id (final_op r)) <> poll_fail_msg (Id (final_op r)).
Proof.
  cbv zeta. intros Hd. split.
  - unfold WaitInterval, waitInterval in *.
    rewrite (wait_loop_done_outcome fuel ctx pollInterval o 0 0 Hd).
    unfold Error, ErrorStatus, status_Err.
    destruct (GetError (proto (final_op _))) as [st|]; [|reflexivity].
    destruct (rpc_code st =? codes_OK); reflexivity.
  - intros H. symmetry in H. revert H. apply poll_fail_msg_not_failed_msg.
Qed.

Lemma done_returns_recorded_error_witness :
  let r := WaitInterval 5 Samples.failing Samples.never_done Second in
  Done (final_op r) = true
  /\ outcome r
     = Returned (Some (errWithMessage (StatusErr 13 "disk full")
                         (failed_msg "dtj9")))
  /\ count_gets (trace r) = 2%nat.
Proof.
  cbv zeta. split; [reflexivity|]. split; [|reflexivity].
  exact (proj1 (done_returns_recorded_error 5 Samples.failing
                  Samples.never_done Second eq_refl)).
Defined.

(** ** Cancellation *)

Lemma app_split_before_ctx_done (evs rest pre post : list Event) (ce : ctx_error) :
  Forall (fun y => is_ctx_done y = false) evs ->
  (evs ++ rest = pre ++ EvCtxDone ce :: post)%list ->
  exists mid, pre = (evs ++ mid)%list /\ rest = (mid ++ EvCtxDone ce :: post)%list.
Proof.
  intros Hf. revert pre.
  induction Hf as [|a evs Ha Hf IH]; intros pre H; simpl in H.
  - exists pre. split; [reflexivity|exact H].
  - destruct pre as [|b pre]; simpl in H.
    + injection H as -> _. discriminate Ha.
    + injection H as -> H. destruct (IH pre H) as (mid & -> & ->).
      exists mid. split; reflexivity.
Qed.

(** The events of one pass either hold no receipt of [ctx.Done()], or end
    with timer, receipt and stop, the pass returning the wrapped context
    error. *)
Lemma loop_body_ctx_done ctx pollInterval o notFoundCount t :
  let s := loop_body ctx pollInterval o notFoundCount t in
  Forall (fun y => is_ctx_done y = false) (s_events s)
  \/ exists before d ce,
       s_events s = (before ++ [EvNewTimer d; EvCtxDone ce; EvStop])%list
       /\ Forall (fun y => is_ctx_done y = false) before
       /\ next s = Return (Some (errWithMessage (CtxErr ce)
                                   (wait_context_done_msg (Id (s_op s))))).
Proof.
  unfold loop_body.
  destruct (Poll o ctx t) as [p|m] eqn:HP; simpl; [|left; constructor].
  assert (Hq : Forall (fun y => is_ctx_done y = false) (poll_events p)).
  { destruct (Poll_events_shape _ _ _ _ HP) as [->|[f ->]]; repeat constructor. }
  assert (Hr : forall c r, absorb notFoundCount (poll_err p) = inl (c, r) ->
                           Forall (fun y => is_ctx_done y = false) r).
  { unfold absorb. intros c r H.
    destruct (poll_err p); [destruct (_ && _)|]; inversion H;
      repeat constructor. }
  destruct (absorb notFoundCount (poll_err p)) as [[c r]|e] eqn:Ha; simpl;
    [|left; exact Hq].
  specialize (Hr c r eq_refl).
  destruct (Done (poll_op p)); simpl.
  { left. apply Forall_app; split; assumption. }
  destruct (cycle_interval pollInterval (poll_header p) <=? 0); simpl.
  { left. apply Forall_app; split; assumption. }
  destruct (ctx_done ctx t) as [ce|]; simpl.
  - right.
    exists (poll_events p ++ r)%list,
      (cycle_interval pollInterval (poll_header p)), ce.
    split; [rewrite <- app_assoc; reflexivity|].
    split; [apply Forall_app; split; assumption|reflexivity].
  - left. apply Forall_app; split; [assumption|].
    apply Forall_app; split; [assumption|repeat constructor].
Qed.

(** In every run of the loop a receipt of [ctx.Done()] follows the
    creation of a timer, is followed by the stop of that timer and by
    nothing else, and the run returns the wrapped context error. *)
Lemma wait_loop_ctx_done fuel ctx pollInterval :
  forall o notFoundCount t pre ce post,
  let r := wait_loop fuel ctx pollInterval o notFoundCount t in
  trace r = (pre ++ EvCtxDone ce :: post)%list ->
  post = [EvStop]
  /\ (exists before d, pre = (before ++ [EvNewTimer d])%list)
  /\ outcome r
     = Returned (Some (errWithMessage (CtxErr ce)
                         (wait_context_done_msg (Id (final_op r))))).
Proof.
  induction fuel as [|fuel IH]; intros o n t pre ce post; cbv zeta.
  - simpl. destruct (Done o); simpl; intros H;
      destruct pre; discriminate H.
  - destruct (Done o) eqn:Hd.
    + rewrite wait_loop_done by exact Hd. simpl. intros H.
      destruct pre; discriminate H.
    + rewrite wait_loop_pass by exact Hd. cbv zeta.
      destruct (loop_body_ctx_done ctx pollInterval o n t)
        as [Hf|(before & d & ce0 & Hev & Hf & Hn)]; cbv zeta in *.
      * destruct (next (loop_body ctx pollInterval o n t)); simpl; intros H;
          destruct (app_split_before_ctx_done _ _ _ _ _ Hf H) as (mid & -> & Hrest);
          try (destruct mid; discriminate Hrest).
        destruct (IH _ _ _ _ _ _ Hrest) as (Hp & (b & d & ->) & Ho).
        split; [exact Hp|]. split; [|exact Ho].
        exists (s_events (loop_body ctx pollInterval o n t) ++ b)%list, d.
        rewrite app_assoc. reflexivity.
      * rewrite Hn, Hev. simpl. rewrite app_nil_r. intros H.
        assert (Hf' : Forall (fun y => is_ctx_done y = false)
                        (before ++ [EvNewTimer d])%list).
        { apply Forall_app; split; [assumption|repeat constructor]. }
        change (before ++ [EvNewTimer d; EvCtxDone ce0; EvStop])%list
          with (before ++ [EvNewTimer d] ++ [EvCtxDone ce0; EvStop])%list in H.
        rewrite app_assoc in H.
        destruct (app_split_before_ctx_done _ _ _ _ _ Hf' H) as (mid & -> & Hrest).
        destruct mid as [|x mid]; simpl in Hrest.
        -- injection Hrest as -> <-.
           split; [reflexivity|]. split; [|reflexivity].
           exists before, d. rewrite app_nil_r. reflexivity.
        -- injection Hrest as _ Hrest.
           destruct mid as [|y mid]; simpl in Hrest; [discriminate Hrest|].
           injection Hrest as _ Hrest. destruct mid; discriminate Hrest.
Qed.

(** ** Reaching a pass *)

Lemma emit_nil (r : Run) : emit [] r = r.
Proof.
  destruct r. reflexivity.
Qed.

Lemma emit_app (a b : list Event) (r : Run) :
  emit (a ++ b) r = emit a (emit b r).
Proof.
  unfold emit. simpl. rewrite app_assoc. reflexivity.
Qed.

(** A wait whose first [k] passes all go back to the loop condition runs
    on from the state they lead to. *)
Lemma wait_loop_after_passes (k : nat) :
  forall ctx pollInterval o notFoundCount t o' n' pre fuel,
  passes k ctx pollInterval o notFoundCount t = Some (o', n', pre) ->
  wait_loop (k + fuel) ctx pollInterval o notFoundCount t
  = emit pre (wait_loop fuel ctx pollInterval o' n' (k + t)).
Proof.
  induction k as [|k IH]; intros ctx pollInterval o n t o' n' pre fuel H;
    cbn [passes] in H.
  - injection H as <- <- <-. rewrite emit_nil. reflexivity.
  - destruct (Done o) eqn:Hd; [discriminate H|].
    cbv zeta in H.
    destruct (next (loop_body ctx pollInterval o n t)) eqn:Hn;
      try discriminate H.
    destruct (passes k ctx pollInterval
                (s_op (loop_body ctx pollInterval o n t))
                (s_count (loop_body ctx pollInterval o n t)) (S t))
      as [[[o2 n2] evs]|] eqn:Hp; [|discriminate H].
    injection H as <- <- <-.
    change (S k + fuel)%nat with (S (k + fuel)).
    rewrite wait_loop_pass by exact Hd. cbv zeta.
    rewrite Hn, (IH _ _ _ _ _ _ _ _ fuel Hp), emit_app.
    replace (k + S t)%nat with (S k + t)%nat by lia. reflexivity.
Qed.

(** The counter a pass starts from is at least the counter of the start
    and, like it, at most the bound. *)
Lemma passes_count (k : nat) :
  forall ctx pollInterval o notFoundCount t o' n' pre,
  passes k ctx pollInterval o notFoundCount t = Some (o', n', pre) ->
  notFoundCount <= n'
  /\ (notFoundCount <= maxNotFoundRetry -> n' <= maxNotFoundRetry).
Proof.
  induction k as [|k IH]; intros ctx pollInterval o n t o' n' pre H;
    cbn [passes] in H.
  - injection H as <- <- <-. lia.
  - destruct (Done o); [discriminate H|]. cbv zeta in H.
    destruct (next (loop_body ctx pollInterval o n t)); try discriminate H.
    destruct (passes k ctx pollInterval
                (s_op (loop_body ctx pollInterval o n t))
                (s_count (loop_body ctx pollInterval o n t)) (S t))
      as [[[o2 n2] evs]|] eqn:Hp; [|discriminate H].
    injection H as <- <- <-.
    destruct (IH _ _ _ _ _ _ _ _ Hp) as [I1 I2].
    destruct (loop_body_count ctx pollInterval o n t) as (Hc & Hb & _).
    cbv zeta in Hc, Hb. lia.
Qed.

(** C8. When a wait has reached pass [t], the poll of that pass leaves the
    handle not done, the interval of the cycle is positive, so that the
    loop creates a timer and blocks in the [select], and [ctx.Done()] is
    what the [select] receives there, then the timer is stopped, the run
    ends with that stop (no further query, no further timer) and the wait
    returns the error of the context wrapped with the wait-context-done
    message, which differs from the poll-fail and the failed messages. *)
Theorem cancellation_while_waiting_ends_wait
    (t fuel : nat) (o : Operation) (ctx : Context) (pollInterval : Z)
    (o' : Operation) (n' : Z) (pre : list Event)
    (p : PollOut) (count : Z) (retried : list Event) (ce : ctx_error) :
  passes t ctx pollInterval o 0 0 = Some (o', n', pre) ->
  Done o' = false ->
  Poll o' ctx t = Ret p ->
  absorb n' (poll_err p) = inl (count, retried) ->
  Done (poll_op p) = false ->
  0 < cycle_interval pollInterval (poll_header p) ->
  ctx_done ctx t = Some ce ->
  let r := WaitInterval (S t + fuel) o ctx pollInterval in
  trace r
  = (pre ++ poll_events p ++ retried
     ++ [EvNewTimer (cycle_interval pollInterval (poll_header p));
         EvCtxDone ce; EvStop])%list
  /\ outcome r
     = Returned (Some (errWithMessage (CtxErr ce)
                         (wait_context_done_msg (Id (poll_op p)))))
  /\ final_op r = poll_op p
  /\ wait_context_done_msg (Id (poll_op p)) <> poll_fail_msg (Id (poll_op p))
  /\ wait_context_done_msg (Id (poll_op p)) <> failed_msg (Id (poll_op p)).
Proof.
  intros Hreach Hd HP Ha Hd1 Hi Hctx. cbv zeta.
  unfold WaitInterval, waitInterval.
  replace (S t + fuel)%nat with (t + S fuel)%nat by lia.
  rewrite (wait_loop_after_passes t _ _ _ _ _ _ _ _ (S fuel) Hreach).
  replace (t + 0)%nat with t by lia.
  rewrite wait_loop_pass by exact Hd.
  rewrite (loop_body_goes_on ctx pollInterval o' n' t p count retried HP Ha Hd1).
  cbv zeta. apply Z.leb_gt in Hi. rewrite Hi, Hctx.
  unfold emit. cbn [next s_op s_count s_events outcome final_op final_count trace].
  rewrite app_nil_r.
  split; [reflexivity|]. split; [reflexivity|]. split; [reflexivity|].
  split.
  - apply wait_context_done_msg_not_poll_fail_msg.
  - apply wait_context_done_msg_not_failed_msg.
Qed.

Lemma cancellation_while_waiting_ends_wait_witness :
  let o := Samples.paced in
  let ctx := Samples.cancelled_at 1 in
  let r := WaitInterval 9 o ctx Second in
  passes 1 ctx Second o 0 0
  = Some (o, 0, [EvGet Clickhouse "cho1"; EvNewTimer (7 * Second); EvTimerFired])
  /\ ctx_done ctx 1 = Some Canceled
  /\ trace r
     = [EvGet Clickhouse "cho1"; EvNewTimer (7 * Second); EvTimerFired;
        EvGet Clickhouse "cho1"; EvNewTimer (7 * Second);
        EvCtxDone Canceled; EvStop]
  /\ outcome r
     = Returned (Some (errWithMessage (CtxErr Canceled)
                         (wait_context_done_msg "cho1"))).
Proof.
  cbv zeta. split; [reflexivity|]. split; [reflexivity|].
  destruct (cancellation_while_waiting_ends_wait 1 7 Samples.paced
              (Samples.cancelled_at 1) Second Samples.paced 0
              [EvGet Clickhouse "cho1"; EvNewTimer (7 * Second); EvTimerFired]
              (mkPollOut None Samples.paced
                 {[ pollIntervalMetadataKey := ["7"] ]}
                 [EvGet Clickhouse "cho1"])
              0 [] Canceled
              eq_refl eq_refl eq_refl eq_refl eq_refl eq_refl eq_refl)
    as (H1 & H2 & _).
  split; [exact H1|exact H2].
Defined.

(** * Further properties of the handle *)

(** X1. [Ok] and [Failed] split [Done]: a handle is done exactly when it is
    ok or failed, never both, and [Ok] is [Done] without a recorded error. *)
Theorem Ok_and_Failed_split_Done (o : Operation) :
  Done o = Ok o || Failed o
  /\ Ok o && Failed o = false
  /\ Failed o = Done o && negb (Ok o)
  /\ (Ok o = true <-> Done o = true /\ ErrorStatus o = None).
Proof.
  unfold Ok, Failed, ErrorStatus.
  destruct (Done o), (GetError (proto o)); simpl;
    (split; [reflexivity|]); (split; [reflexivity|]);
    (split; [reflexivity|]); split; intros H;
    try discriminate H; try (destruct H; congruence); auto.
Qed.

(** X2. A non-nil [Error] is the status error with the code and message of
    [ErrorStatus], the code not being OK, so that [status.FromError] gives
    both back; the handle is then not ok, and failed when it is done. *)
Theorem Error_carries_ErrorStatus (o : Operation) (e : error) :
  Error o = Some e ->
  exists st,
    ErrorStatus o = Some st
    /\ rpc_code st <> codes_OK
    /\ e = StatusErr (rpc_code st) (rpc_message st)
    /\ status_FromError e = Some (rpc_code st, rpc_message st)
    /\ Ok o = false
    /\ Failed o = Done o.
Proof.
  unfold Error, ErrorStatus, status_Err, Ok, Failed. intros H.
  destruct (GetError (proto o)) as [st|]; [|discriminate H].
  destruct (rpc_code st =? codes_OK) eqn:Hc; [discriminate H|].
  injection H as <-. exists st.
  apply Z.eqb_neq in Hc.
  repeat split; try assumption; try reflexivity.
  - rewrite andb_false_r. reflexivity.
  - rewrite andb_true_r. reflexivity.
Qed.

Lemma Error_carries_ErrorStatus_witness :
  let o := Samples.failing_stages 2 in
  Error o = Some (StatusErr 13 "disk full")
  /\ exists st, ErrorStatus o = Some st /\ rpc_code st <> codes_OK.
Proof.
  cbv zeta. split; [reflexivity|].
  destruct (Error_carries_ErrorStatus (Samples.failing_stages 2)
              (StatusErr 13 "disk full") eq_refl)
    as (st & H1 & H2 & _).
  exists st. split; assumption.
Defined.

(** X3. A poll is all or nothing: it never changes the client; when it
    returns an error the handle is as before; and whenever the handle
    changes, the poll returned no error, issued exactly one query for the
    old identifier and stored the state that query returned, whole. *)
Theorem Poll_is_all_or_nothing (o : Operation) (ctx : Context) (t : nat) (p : PollOut) :
  Poll o ctx t = Ret p ->
  client (poll_op p) = client o
  /\ (poll_err p <> None -> poll_op p = o)
  /\ (poll_op p = o
      \/ exists f,
           poll_err p = None
           /\ poll_events p = [EvGet f (Id o)]
           /\ r_state (Get (client o) f ctx (Id o) t) = Some (proto (poll_op p))).
Proof.
  intros H. rewrite Poll_by_class in H. unfold call_Get in H.
  destruct (spec_classify (Id o)) as [f|].
  - destruct f; (destruct (implements (client o) _); [|discriminate H]);
      simpl in H; injection H as <-; unfold Poll_finish;
      destruct (r_state _) eqn:Hs; try destruct (r_err _) eqn:He; simpl;
      (split; [reflexivity|]); (split; [try congruence; reflexivity|]);
      auto; right; eexists; repeat split; eauto.
  - injection H as <-. simpl. repeat split; auto.
Qed.

Lemma Poll_is_all_or_nothing_witness :
  let o := Samples.failing in
  exists p,
    Poll o Samples.never_done 0 = Ret p
    /\ client (poll_op p) = client o
    /\ poll_op p = Samples.failing_stages 1.
Proof.
  cbv zeta. eexists. split; [reflexivity|]. split; [|reflexivity].
  exact (proj1 (Poll_is_all_or_nothing Samples.failing Samples.never_done 0 _ eq_refl)).
Defined.

(** X4. For an identifier of the cho, kfo, dtj or dte families the two
    results of the query decide the poll: a state alone is stored and nil
    returned; a state with an error returns that error as it is and stores
    nothing; an error alone returns it wrapped with the unknown-type
    message; neither state nor error returns nil and stores nothing.  The
    header metadata of the answer is handed on in every case. *)
Theorem Poll_prefix_family_contract
    (o : Operation) (ctx : Context) (t : nat) (p : PollOut) (f : Family) :
  spec_classify (Id o) = Some f -> f <> Network ->
  Poll o ctx t = Ret p ->
  let r := Get (client o) f ctx (Id o) t in
  poll_header p = r_header r
  /\ match r_state r, r_err r with
     | Some st, None => poll_err p = None /\ proto (poll_op p) = st
     | Some _, Some e => poll_err p = Some e /\ poll_op p = o
     | None, Some e =>
         poll_err p = Some (errWithMessage e (unknown_type_msg (Id o)))
         /\ poll_op p = o
     | None, None => poll_err p = None /\ poll_op p = o
     end.
Proof.
  intros Hc Hf H. cbv zeta. rewrite Poll_by_class, Hc in H.
  unfold call_Get in H.
  destruct f; try congruence;
    (destruct (implements (client o) _); [|discriminate H]);
    simpl in H; injection H as <-; unfold Poll_finish;
    destruct (r_state _); destruct (r_err _); simpl; auto.
Qed.

Lemma Poll_prefix_family_contract_witness :
  let o := Samples.handle "kfo2"
             (Samples.scripted [Samples.state_and_error "kfo2"]
                Samples.unavailable) in
  spec_classify (Id o) = Some Kafka
  /\ (exists p, Poll o Samples.never_done 0 = Ret p
                /\ poll_err p = Some (StatusErr 14 "unavailable")
                /\ poll_op p = o)
  /\ (exists p, Poll o Samples.never_done 1 = Ret p
                /\ poll_err p
                   = Some (errWithMessage (StatusErr 14 "unavailable")
                             (unknown_type_msg "kfo2"))
                /\ poll_op p = o).
Proof.
  cbv zeta. split; [reflexivity|]. split.
  - eexists. split; [reflexivity|].
    exact (proj2 (Poll_prefix_family_contract
                    (Samples.handle "kfo2"
                       (Samples.scripted [Samples.state_and_error "kfo2"]
                          Samples.unavailable))
                    Samples.never_done 0 _ Kafka eq_refl ltac:(discriminate) eq_refl)).
  - eexists. split; [reflexivity|].
    exact (proj2 (Poll_prefix_family_contract
                    (Samples.handle "kfo2"
                       (Samples.scripted [Samples.state_and_error "kfo2"]
                          Samples.unavailable))
                    Samples.never_done 1 _ Kafka eq_refl ltac:(discriminate) eq_refl)).
Defined.

(** X5. For an identifier routed to the network family, and for one that
    no rule matches, a poll returns nil whatever happens: with no matching
    rule nothing is queried and nothing stored; in the network family the
    error of the query is dropped, a returned state is stored even when an
    error came with it, and without a state the handle stays as it was. *)
Theorem Poll_returns_nil_outside_prefix_families
    (o : Operation) (ctx : Context) (t : nat) (p : PollOut) :
  spec_classify (Id o) = Some Network \/ spec_classify (Id o) = None ->
  Poll o ctx t = Ret p ->
  poll_err p = None
  /\ (spec_classify (Id o) = None -> poll_op p = o /\ poll_events p = [])
  /\ (spec_classify (Id o) = Some Network ->
      poll_events p = [EvGet Network (Id o)]
      /\ match r_state (Get (client o) Network ctx (Id o) t) with
         | Some st => proto (poll_op p) = st
         | None => poll_op p = o
         end).
Proof.
  intros Hc H. rewrite Poll_by_class in H. unfold call_Get in H.
  destruct Hc as [Hc|Hc]; rewrite Hc in H |- *.
  - destruct (implements (client o) Network); [|discriminate H].
    simpl in H. injection H as <-. unfold Poll_finish.
    destruct (r_state _); simpl;
      (split; [reflexivity|]); (split; [intros Hn; discriminate Hn|]);
      intros _; split; reflexivity.
  - injection H as <-. simpl.
    split; [reflexivity|]. split; [intros _; split; reflexivity|].
    intros Hn. discriminate Hn.
Qed.

Lemma Poll_returns_nil_outside_prefix_families_witness :
  let o := Samples.handle Samples.uuid_id
             (Samples.scripted [Samples.state_and_error Samples.uuid_id]
                Samples.unavailable) in
  spec_classify (Id o) = Some Network
  /\ (exists p, Poll o Samples.never_done 0 = Ret p /\ poll_err p = None)
  /\ (exists p, Poll o Samples.never_done 1 = Ret p /\ poll_err p = None).
Proof.
  cbv zeta. split; [reflexivity|]. split.
  - eexists. split; [reflexivity|].
    exact (proj1 (Poll_returns_nil_outside_prefix_families
                    (Samples.handle Samples.uuid_id
                       (Samples.scripted
                          [Samples.state_and_error Samples.uuid_id]
                          Samples.unavailable))
                    Samples.never_done 0 _ (or_introl eq_refl) eq_refl)).
  - eexists. split; [reflexivity|].
    exact (proj1 (Poll_returns_nil_outside_prefix_families
                    (Samples.handle Samples.uuid_id
                       (Samples.scripted
                          [Samples.state_and_error Samples.uuid_id]
                          Samples.unavailable))
                    Samples.never_done 1 _ (or_introl eq_refl) eq_refl)).
Defined.

(** X6. When the client does not implement the service of the family the
    identifier selects, [Poll] panics in the type assertion, and so does a
    wait on a handle that is not done, at its first poll and before any
    query. *)
Theorem missing_service_panics
    (fuel : nat) (o : Operation) (ctx : Context) (pollInterval : Z)
    (f : Family) (t : nat) :
  spec_classify (Id o) = Some f ->
  implements (client o) f = false ->
  Poll o ctx t = Panic "interface conversion"
  /\ (Done o = false ->
      WaitInterval (S fuel) o ctx pollInterval
      = mkRun (Panicked "interface conversion") o 0 []).
Proof.
  intros Hc Hi.
  assert (HP : forall t', Poll o ctx t' = Panic "interface conversion").
  { intros t'. rewrite Poll_by_class, Hc. unfold call_Get.
    destruct f; rewrite Hi; reflexivity. }
  split; [apply HP|].
  intros Hd. unfold WaitInterval, waitInterval.
  rewrite wait_loop_pass by exact Hd.
  unfold loop_body. rewrite HP. reflexivity.
Qed.

Lemma missing_service_panics_witness :
  let o := Samples.handle "cho1" Samples.bare in
  spec_classify (Id o) = Some Clickhouse
  /\ implements (client o) Clickhouse = false
  /\ outcome (Wait 1 o Samples.never_done) = Panicked "interface conversion".
Proof.
  cbv zeta. split; [reflexivity|]. split; [reflexivity|].
  exact (f_equal outcome
           (proj2 (missing_service_panics 0 (Samples.handle "cho1" Samples.bare)
                     Samples.never_done DefaultPollInterval Clickhouse 0
                     eq_refl eq_refl) eq_refl)).
Defined.

(** * Further properties of the wait loop *)

(** X7. A wait on a handle that is already done polls nothing and waits for
    nothing: whatever the fuel, the context (done or not) and the interval,
    it is the run that returns the result of line 184 with an empty trace,
    the handle untouched. *)
Theorem wait_on_done_handle_returns_at_once
    (fuel : nat) (o : Operation) (ctx : Context) (pollInterval : Z) :
  Done o = true ->
  WaitInterval fuel o ctx pollInterval
  = mkRun (Returned (WithMessagef (Error o) (failed_msg (Id o)))) o 0 [].
Proof.
  intros Hd. unfold WaitInterval, waitInterval.
  rewrite wait_loop_done by exact Hd. reflexivity.
Qed.

Lemma wait_on_done_handle_returns_at_once_witness :
  let o := Samples.failing_stages 2 in
  Done o = true
  /\ WaitInterval 0 o (Samples.cancelled_at 0) 0
     = mkRun (Returned (Some (errWithMessage (StatusErr 13 "disk full")
                                (failed_msg "dtj9")))) o 0 [].
Proof.
  cbv zeta. split; [reflexivity|].
  exact (wait_on_done_handle_returns_at_once 0 (Samples.failing_stages 2)
           (Samples.cancelled_at 0) 0 eq_refl).
Defined.

(** X8. A first poll that fails with an error that is not a not-found
    status ends the wait at once: one query, no retry, no timer, the
    handle as before, and the error returned under the poll-fail message. *)
Theorem other_poll_error_ends_wait
    (fuel : nat) (o : Operation) (ctx : Context) (pollInterval : Z)
    (p : PollOut) (e : error) :
  Done o = false ->
  Poll o ctx 0 = Ret p ->
  poll_err p = Some e ->
  shoudRetry e = false ->
  exists f,
    WaitInterval (S fuel) o ctx pollInterval
    = mkRun (Returned (Some (errWithMessage e (poll_fail_msg (Id o)))))
        o 0 [EvGet f (Id o)].
Proof.
  intros Hd HP He Hs.
  destruct (Poll_error_one_query _ _ _ _ _ HP He) as [f Hev].
  exists f. unfold WaitInterval, waitInterval.
  rewrite wait_loop_pass by exact Hd.
  rewrite (loop_body_poll_fail ctx pollInterval o 0 0 p e HP He)
    by (rewrite Hs; apply andb_false_r).
  simpl. rewrite Hev. reflexivity.
Qed.

Lemma other_poll_error_ends_wait_witness :
  let o := Samples.handle "dte5" (Samples.scripted [] Samples.unavailable) in
  let e := errWithMessage (StatusErr 14 "unavailable") (unknown_type_msg "dte5") in
  Done o = false
  /\ shoudRetry e = false
  /\ exists f,
       Wait 1 o Samples.never_done
       = mkRun (Returned (Some (errWithMessage e (poll_fail_msg (Id o)))))
           o 0 [EvGet f (Id o)].
Proof.
  cbv zeta. split; [reflexivity|]. split; [reflexivity|].
  exact (other_poll_error_ends_wait 0
           (Samples.handle "dte5" (Samples.scripted [] Samples.unavailable))
           Samples.never_done DefaultPollInterval
           (mkPollOut
              (Some (errWithMessage (StatusErr 14 "unavailable")
                       (unknown_type_msg "dte5")))
              (Samples.handle "dte5" (Samples.scripted [] Samples.unavailable))
              ∅ [EvGet Transfer "dte5"])
           _ eq_refl eq_refl eq_refl eq_refl).
Defined.

(** The two [return]s inside the loop body. *)
Lemma loop_body_return_shape ctx pollInterval o notFoundCount t :
  let s := loop_body ctx pollInterval o notFoundCount t in
  forall err, next s = Return err ->
  (exists e, err = Some (errWithMessage e (poll_fail_msg (Id (s_op s)))))
  \/ (exists ce, err = Some (errWithMessage (CtxErr ce)
                              (wait_context_done_msg (Id (s_op s))))).
Proof.
  unfold loop_body.
  destruct (Poll o ctx t) as [p|m]; simpl; [|intros err H; discriminate H].
  destruct (absorb notFoundCount (poll_err p)) as [[c r]|e]; simpl.
  - destruct (Done (poll_op p)); simpl; [intros err H; discriminate H|].
    destruct (cycle_interval pollInterval (poll_header p) <=? 0); simpl;
      [intros err H; discriminate H|].
    destruct (ctx_done ctx t) as [ce|]; simpl; intros err H;
      [|discriminate H].
    injection H as <-. right. exists ce. reflexivity.
  - intros err H. injection H as <-. left. exists e. reflexivity.
Qed.

Lemma wait_loop_taxonomy fuel ctx pollInterval :
  forall o notFoundCount t,
  let r := wait_loop fuel ctx pollInterval o notFoundCount t in
  match outcome r with
  | Returned None =>
      Done (final_op r) = true /\ Error (final_op r) = None
  | Returned (Some e) =>
      (Done (final_op r) = true
       /\ exists e', Error (final_op r) = Some e'
                     /\ e = errWithMessage e' (failed_msg (Id (final_op r))))
      \/ (Done (final_op r) = false
          /\ ((exists e', e = errWithMessage e' (poll_fail_msg (Id (final_op r))))
              \/ (exists ce, e = errWithMessage (CtxErr ce)
                                   (wait_context_done_msg (Id (final_op r))))))
  | Panicked _ | OutOfFuel => Done (final_op r) = false
  end.
Proof.
  assert (Hafter : forall o n, Done o = true ->
    let r := after_loop o n in
    match outcome r with
    | Returned None =>
        Done (final_op r) = true /\ Error (final_op r) = None
    | Returned (Some e) =>
        (Done (final_op r) = true
         /\ exists e', Error (final_op r) = Some e'
                       /\ e = errWithMessage e' (failed_msg (Id (final_op r))))
        \/ (Done (final_op r) = false
            /\ ((exists e', e = errWithMessage e' (poll_fail_msg (Id (final_op r))))
                \/ (exists ce, e = errWithMessage (CtxErr ce)
                                     (wait_context_done_msg (Id (final_op r))))))
    | Panicked _ | OutOfFuel => Done (final_op r) = false
    end).
  { intros o n Hd. unfold after_loop. simpl.
    destruct (Error o) as [e'|] eqn:He; simpl.
    - left. split; [exact Hd|]. exists e'. split; reflexivity.
    - split; [exact Hd|reflexivity]. }
  induction fuel as [|fuel IH]; intros o n t.
  - simpl. destruct (Done o) eqn:Hd; [apply Hafter; exact Hd|exact Hd].
  - destruct (Done o) eqn:Hd.
    + rewrite wait_loop_done by exact Hd. apply Hafter; exact Hd.
    + rewrite wait_loop_pass by exact Hd.
      pose proof (loop_body_op_done ctx pollInterval o n t Hd) as Hs.
      pose proof (loop_body_return_shape ctx pollInterval o n t) as Hr.
      cbv zeta in *.
      destruct (next (loop_body ctx pollInterval o n t)) as [| |err|m].
      * apply IH.
      * apply Hafter. exact Hs.
      * simpl. destruct (Hr err eq_refl) as [[e ->]|[ce ->]];
          right; (split; [exact Hs|]); [left|right]; eexists; reflexivity.
      * simpl. exact Hs.
Qed.

(** X9. What a wait returns tells how it ended.  A nil return means the
    handle is done and [Error] is nil.  A non-nil return wraps either
    [Error] of a done handle with the failed message, or, the handle not
    being done, a poll error with the poll-fail message or the error of the
    context with the wait-context-done message.  A panic or a wait still
    running leaves a handle that is not done. *)
Theorem wait_result_tells_the_cause
    (fuel : nat) (o : Operation) (ctx : Context) (pollInterval : Z) :
  let r := WaitInterval fuel o ctx pollInterval in
  match outcome r with
  | Returned None =>
      Done (final_op r) = true /\ Error (final_op r) = None
  | Returned (Some e) =>
      (Done (final_op r) = true
       /\ exists e', Error (final_op r) = Some e'
                     /\ e = errWithMessage e' (failed_msg (Id (final_op r))))
      \/ (Done (final_op r) = false
          /\ ((exists e', e = errWithMessage e' (poll_fail_msg (Id (final_op r))))
              \/ (exists ce, e = errWithMessage (CtxErr ce)
                                   (wait_context_done_msg (Id (final_op r))))))
  | Panicked _ | OutOfFuel => Done (final_op r) = false
  end.
Proof.
  exact (wait_loop_taxonomy fuel ctx pollInterval o 0 0).
Qed.

(** ** Timers *)

Lemma timers_settled_quiet_app (q tr : list Event) :
  Forall (fun y => is_timer y = false) q ->
  timers_settled (q ++ tr) = timers_settled tr.
Proof.
  induction 1 as [|a q Ha Hq IH]; simpl; [reflexivity|].
  destruct a; try discriminate Ha; exact IH.
Qed.

(** The events of one pass: queries and retries, then possibly one timer
    of positive duration that is received, or one that is stopped after a
    receipt of [ctx.Done()], the pass returning. *)
Lemma loop_body_timer_shape ctx pollInterval o notFoundCount t :
  let s := loop_body ctx pollInterval o notFoundCount t in
  exists q, Forall (fun y => is_timer y = false) q
  /\ (s_events s = q
      \/ (exists d, 0 < d /\ s_events s = (q ++ [EvNewTimer d; EvTimerFired])%list
                    /\ next s = Continue)
      \/ (exists d ce err,
           0 < d /\ s_events s = (q ++ [EvNewTimer d; EvCtxDone ce; EvStop])%list
           /\ next s = Return err)).
Proof.
  unfold loop_body.
  destruct (Poll o ctx t) as [p|m] eqn:HP; simpl.
  2: { exists []. split; [constructor|left; reflexivity]. }
  assert (Hq : Forall (fun y => is_timer y = false) (poll_events p)).
  { destruct (Poll_events_shape _ _ _ _ HP) as [->|[f ->]]; repeat constructor. }
  assert (Hr : forall c r, absorb notFoundCount (poll_err p) = inl (c, r) ->
                           Forall (fun y => is_timer y = false) r).
  { unfold absorb. intros c r H.
    destruct (poll_err p); [destruct (_ && _)|]; inversion H;
      repeat constructor. }
  destruct (absorb notFoundCount (poll_err p)) as [[c r]|e] eqn:Ha; simpl.
  2: { exists (poll_events p). split; [exact Hq|left; reflexivity]. }
  specialize (Hr c r eq_refl).
  exists (poll_events p ++ r)%list. split; [apply Forall_app; split; assumption|].
  destruct (Done (poll_op p)); simpl; [left; reflexivity|].
  destruct (cycle_interval pollInterval (poll_header p) <=? 0) eqn:Hi; simpl;
    [left; reflexivity|].
  apply Z.leb_gt in Hi.
  destruct (ctx_done ctx t) as [ce|]; simpl; right.
  - right. exists (cycle_interval pollInterval (poll_header p)), ce.
    eexists. split; [exact Hi|]. split; [|reflexivity].
    rewrite app_assoc. reflexivity.
  - left. exists (cycle_interval pollInterval (poll_header p)).
    split; [exact Hi|]. split; [|reflexivity].
    rewrite app_assoc. reflexivity.
Qed.

Lemma wait_loop_timers_settled fuel ctx pollInterval :
  forall o notFoundCount t,
  timers_settled (trace (wait_loop fuel ctx pollInterval o notFoundCount t)) = true.
Proof.
  induction fuel as [|fuel IH]; intros o n t.
  - simpl. destruct (Done o); reflexivity.
  - destruct (Done o) eqn:Hd.
    + rewrite wait_loop_done by exact Hd. reflexivity.
    + rewrite wait_loop_pass by exact Hd. cbv zeta.
      destruct (loop_body_timer_shape ctx pollInterval o n t)
        as (q & Hq & [Hev|[(d & Hd0 & Hev & Hn)|(d & ce & err & Hd0 & Hev & Hn)]]);
        cbv zeta in *; rewrite Hev.
      * destruct (next (loop_body ctx pollInterval o n t)); simpl;
          rewrite timers_settled_quiet_app by exact Hq;
          try reflexivity.
        apply IH.
      * rewrite Hn. simpl. rewrite <- app_assoc.
        rewrite timers_settled_quiet_app by exact Hq. simpl.
        apply Z.ltb_lt in Hd0. rewrite Hd0. apply IH.
      * rewrite Hn. simpl. rewrite <- app_assoc.
        rewrite timers_settled_quiet_app by exact Hq. simpl.
        apply Z.ltb_lt in Hd0. rewrite Hd0. reflexivity.
Qed.

(** X10. In every run of a wait each timer is created for a positive
    duration and is settled before anything else happens: either its
    channel is received and the loop goes on, or [ctx.Done()] is received,
    the timer is stopped and the run ends; there is no receipt or stop
    without a timer, and at most one timer is pending at a time. *)
Theorem every_timer_is_positive_and_settled
    (fuel : nat) (o : Operation) (ctx : Context) (pollInterval : Z) :
  timers_settled (trace (WaitInterval fuel o ctx pollInterval)) = true.
Proof.
  exact (wait_loop_timers_settled fuel ctx pollInterval o 0 0).
Qed.

(** ** Successful polls in sequence *)

Lemma wait_loop_follows_successful_polls (k : nat) :
  forall fuel ctx pollInterval (ops : nat -> Operation) notFoundCount lo,
  (forall t, (lo <= t <= lo + k)%nat ->
     exists p, Poll (ops t) ctx t = Ret p /\ poll_err p = None
               /\ poll_op p = ops (S t)) ->
  (forall t, (lo <= t <= lo + k)%nat -> Done (ops t) = false) ->
  Done (ops (S (lo + k))) = true ->
  (forall t, (lo <= t < lo + k)%nat -> ctx_done ctx t = None) ->
  let r := wait_loop (S k + fuel) ctx pollInterval (ops lo) notFoundCount lo in
  outcome r
  = Returned (WithMessagef (Error (ops (S (lo + k))))
                (failed_msg (Id (ops (S (lo + k))))))
  /\ final_op r = ops (S (lo + k))
  /\ final_count r = notFoundCount
  /\ (count_gets (trace r) <= S k)%nat.
Proof.
  induction k as [|k IH]; intros fuel ctx pollInterval ops n lo HP Hnd Hd Hc;
    cbv zeta.
  - destruct (HP lo ltac:(lia)) as (p & Hp & He & Ho).
    pose proof (Hnd lo ltac:(lia)) as Hd0.
    replace (lo + 0)%nat with lo in * by lia.
    change (1 + fuel)%nat with (S fuel).
    rewrite wait_loop_pass by exact Hd0.
    pose proof (loop_body_count ctx pollInterval (ops lo) n lo) as (_ & _ & Hg).
    cbv zeta in Hg. revert Hg.
    unfold loop_body. rewrite Hp, He. simpl. rewrite Ho, Hd. simpl.
    intros Hg. rewrite count_gets_app.
    unfold count_gets at 2. simpl. repeat split; lia.
  - destruct (HP lo ltac:(lia)) as (p & Hp & He & Ho).
    pose proof (Hnd lo ltac:(lia)) as Hd0.
    pose proof (Hnd (S lo) ltac:(lia)) as Hd1.
    change (S (S k) + fuel)%nat with (S (S k + fuel)).
    rewrite wait_loop_pass by exact Hd0.
    pose proof (loop_body_count ctx pollInterval (ops lo) n lo) as (_ & _ & Hg).
    cbv zeta in Hg.
    assert (Hb : next (loop_body ctx pollInterval (ops lo) n lo) = Continue
                 /\ s_op (loop_body ctx pollInterval (ops lo) n lo) = ops (S lo)
                 /\ s_count (loop_body ctx pollInterval (ops lo) n lo) = n).
    { unfold loop_body. rewrite Hp, He. simpl. rewrite Ho, Hd1.
      destruct (cycle_interval pollInterval (poll_header p) <=? 0);
        [repeat split|].
      rewrite (Hc lo ltac:(lia)). repeat split. }
    destruct Hb as (Hn & Hs & Hcnt). cbv zeta. rewrite Hn, Hs, Hcnt.
    specialize (IH fuel ctx pollInterval ops n (S lo)).
    replace (S lo + k)%nat with (lo + S k)%nat in IH by lia.
    destruct IH as (I1 & I2 & I3 & I4).
    + intros t Ht. apply HP. lia.
    + intros t Ht. apply Hnd. lia.
    + exact Hd.
    + intros t Ht. apply Hc. lia.
    + unfold emit. cbn [outcome final_op final_count trace].
      rewrite count_gets_app. repeat split; try assumption. lia.
Qed.

(** X11. Successful polls compose: when polls 0 to k each succeed, lead
    from one handle to the next, only the last of these handles is done,
    and the context is not done during the waits in between, the wait ends
    right after poll k with the result of line 184 for the last handle,
    the not-found counter untouched, after at most k + 1 queries. *)
Theorem wait_follows_successful_polls
    (k fuel : nat) (ctx : Context) (pollInterval : Z) (ops : nat -> Operation) :
  (forall t, (t <= k)%nat ->
     exists p, Poll (ops t) ctx t = Ret p /\ poll_err p = None
               /\ poll_op p = ops (S t)) ->
  (forall t, (t <= k)%nat -> Done (ops t) = false) ->
  Done (ops (S k)) = true ->
  (forall t, (t < k)%nat -> ctx_done ctx t = None) ->
  let r := WaitInterval (S k + fuel) (ops 0%nat) ctx pollInterval in
  outcome r
  = Returned (WithMessagef (Error (ops (S k))) (failed_msg (Id (ops (S k)))))
  /\ final_op r = ops (S k)
  /\ final_count r = 0
  /\ (count_gets (trace r) <= S k)%nat.
Proof.
  intros HP Hnd Hd Hc.
  apply (wait_loop_follows_successful_polls k fuel ctx pollInterval ops 0 0%nat).
  - intros t Ht. apply HP. lia.
  - intros t Ht. apply Hnd. lia.
  - exact Hd.
  - intros t Ht. apply Hc. lia.
Qed.

Lemma wait_follows_successful_polls_witness :
  let r := WaitInterval 2 Samples.failing Samples.never_done Second in
  Done (Samples.failing_stages 2) = true
  /\ outcome r
     = Returned (Some (errWithMessage (StatusErr 13 "disk full")
                         (failed_msg "dtj9")))
  /\ final_op r = Samples.failing_stages 2.
Proof.
  cbv zeta. split; [reflexivity|].
  assert (HP : forall t, (t <= 1)%nat ->
            exists p, Poll (Samples.failing_stages t) Samples.never_done t = Ret p
                      /\ poll_err p = None
                      /\ poll_op p = Samples.failing_stages (S t)).
  { intros t Ht. destruct t as [|[|t]]; [| |lia];
      eexists; split; try reflexivity; split; reflexivity. }
  assert (Hnd : forall t, (t <= 1)%nat -> Done (Samples.failing_stages t) = false).
  { intros t Ht. destruct t as [|[|t]]; [reflexivity|reflexivity|lia]. }
  destruct (wait_follows_successful_polls 1 0 Samples.never_done Second
              Samples.failing_stages HP Hnd eq_refl (fun t _ => eq_refl))
    as (H1 & H2 & _).
  split; [exact H1|exact H2].
Defined.

(** ** Where the context is observed *)

Lemma Poll_header_shape (o : Operation) (ctx : Context) (t : nat) (p : PollOut) :
  Poll o ctx t = Ret p ->
  client (poll_op p) = client o
  /\ (poll_header p = ∅
      \/ exists f, poll_header p = r_header (Get (client o) f ctx (Id o) t)).
Proof.
  intros H. rewrite Poll_by_class in H. unfold call_Get in H.
  destruct (spec_classify (Id o)) as [f|].
  - destruct f; (destruct (implements (client o) _); [|discriminate H]);
      simpl in H; injection H as <-; unfold Poll_finish;
      destruct (r_state _); try destruct (r_err _); simpl;
      (split; [reflexivity|]); right; eexists; reflexivity.
  - injection H as <-. simpl. split; [reflexivity|left; reflexivity].
Qed.

(** A poll depends on the context only through the answers of the
    client. *)
Lemma Poll_same_answers (o : Operation) (ctx ctx' : Context) (t : nat) :
  (forall f id t', Get (client o) f ctx' id t' = Get (client o) f ctx id t') ->
  Poll o ctx' t = Poll o ctx t.
Proof.
  intros H. rewrite !Poll_by_class. unfold call_Get.
  destruct (spec_classify (Id o)) as [f|]; [|reflexivity].
  destruct f; rewrite H; reflexivity.
Qed.

Lemma after_loop_not_ctx_error (o : Operation) (n : Z) (ce : ctx_error) :
  outcome (after_loop o n)
  <> Returned (Some (errWithMessage (CtxErr ce)
                       (wait_context_done_msg (Id (final_op (after_loop o n)))))).
Proof.
  unfold after_loop. cbn [outcome final_op]. unfold WithMessagef.
  destruct (Error o) as [e|]; intros H; [|discriminate H].
  apply (wait_context_done_msg_not_failed_msg (Id o)). congruence.
Qed.

(** A pass without a timed wait: no timer event, no return of the context
    error, the same client, and the same pass under every context that
    gets the same answers. *)
Lemma loop_body_without_timed_wait ctx pollInterval (c : Client) o notFoundCount t :
  pollInterval <= 0 ->
  (forall f id t', cycle_interval pollInterval (r_header (Get c f ctx id t')) <= 0) ->
  client o = c ->
  let s := loop_body ctx pollInterval o notFoundCount t in
  Forall (fun y => is_timer y = false) (s_events s)
  /\ client (s_op s) = c
  /\ (forall err, next s = Return err ->
        exists e, err = Some (errWithMessage e (poll_fail_msg (Id (s_op s)))))
  /\ (forall ctx',
        (forall f id t', Get c f ctx' id t' = Get c f ctx id t') ->
        loop_body ctx' pollInterval o notFoundCount t = s).
Proof.
  intros Hpi Hh Hc. cbv zeta.
  assert (Hsame : forall ctx',
            (forall f id t', Get c f ctx' id t' = Get c f ctx id t') ->
            Poll o ctx' t = Poll o ctx t).
  { intros ctx' H. apply Poll_same_answers. rewrite Hc. exact H. }
  unfold loop_body.
  destruct (Poll o ctx t) as [p|m] eqn:HP; simpl.
  2: { split; [constructor|]. split; [exact Hc|].
       split; [intros err H; discriminate H|].
       intros ctx' H. rewrite (Hsame ctx' H). reflexivity. }
  destruct (Poll_header_shape _ _ _ _ HP) as [Hcl Hhd].
  assert (Hi : (cycle_interval pollInterval (poll_header p) <=? 0) = true).
  { apply Z.leb_le. destruct Hhd as [->|[f ->]].
    - unfold cycle_interval, MD_Get. rewrite lookup_empty. exact Hpi.
    - rewrite Hc. apply Hh. }
  assert (Hq : Forall (fun y => is_timer y = false) (poll_events p)).
  { destruct (Poll_events_shape _ _ _ _ HP) as [->|[f ->]];
      repeat constructor. }
  assert (Hr : forall k r, absorb notFoundCount (poll_err p) = inl (k, r) ->
                           Forall (fun y => is_timer y = false) r).
  { unfold absorb. intros k r H.
    destruct (poll_err p); [destruct (_ && _)|]; inversion H;
      repeat constructor. }
  destruct (absorb notFoundCount (poll_err p)) as [[k r]|e] eqn:Ha; simpl.
  - specialize (Hr k r eq_refl).
    destruct (Done (poll_op p)) eqn:Hd; simpl.
    + split; [apply Forall_app; split; assumption|].
      split; [congruence|]. split; [intros err H; discriminate H|].
      intros ctx' H. rewrite (Hsame ctx' H). simpl. rewrite Ha, Hd. reflexivity.
    + rewrite Hi. simpl.
      split; [apply Forall_app; split; assumption|].
      split; [congruence|]. split; [intros err H; discriminate H|].
      intros ctx' H. rewrite (Hsame ctx' H). simpl. rewrite Ha, Hd, Hi.
      reflexivity.
  - split; [exact Hq|]. split; [congruence|].
    split; [intros err H; injection H as <-; eexists; reflexivity|].
    intros ctx' H. rewrite (Hsame ctx' H). simpl. rewrite Ha. reflexivity.
Qed.

Lemma wait_loop_without_timed_wait fuel ctx pollInterval (c : Client) :
  pollInterval <= 0 ->
  (forall f id t, cycle_interval pollInterval (r_header (Get c f ctx id t)) <= 0) ->
  forall o notFoundCount t,
  client o = c ->
  let r := wait_loop fuel ctx pollInterval o notFoundCount t in
  Forall (fun y => is_timer y = false) (trace r)
  /\ (forall ce,
        outcome r
        <> Returned (Some (errWithMessage (CtxErr ce)
                             (wait_context_done_msg (Id (final_op r))))))
  /\ (forall ctx',
        (forall f id t', Get c f ctx' id t' = Get c f ctx id t') ->
        wait_loop fuel ctx' pollInterval o notFoundCount t = r).
Proof.
  intros Hpi Hh.
  induction fuel as [|fuel IH]; intros o n t Hc; cbv zeta.
  - simpl. destruct (Done o).
    + split; [constructor|]. split; [|reflexivity].
      intros ce. apply after_loop_not_ctx_error.
    + split; [constructor|]. split; [|reflexivity].
      intros ce H. discriminate H.
  - destruct (Done o) eqn:Hd.
    + rewrite wait_loop_done by exact Hd.
      split; [constructor|]. split; [intros ce; apply after_loop_not_ctx_error|].
      intros ctx' H. apply wait_loop_done. exact Hd.
    + rewrite wait_loop_pass by exact Hd. cbv zeta.
      destruct (loop_body_without_timed_wait ctx pollInterval c o n t Hpi Hh Hc)
        as (Hq & Hcl & Hret & Hsame).
      cbv zeta in *.
      assert (Hstep : forall ctx',
                (forall f id t', Get c f ctx' id t' = Get c f ctx id t') ->
                wait_loop (S fuel) ctx' pollInterval o n t
                = emit (s_events (loop_body ctx pollInterval o n t))
                    match next (loop_body ctx pollInterval o n t) with
                    | Continue =>
                        wait_loop fuel ctx' pollInterval
                          (s_op (loop_body ctx pollInterval o n t))
                          (s_count (loop_body ctx pollInterval o n t)) (S t)
                    | Break =>
                        after_loop (s_op (loop_body ctx pollInterval o n t))
                          (s_count (loop_body ctx pollInterval o n t))
                    | Return err =>
                        mkRun (Returned err)
                          (s_op (loop_body ctx pollInterval o n t))
                          (s_count (loop_body ctx pollInterval o n t)) []
                    | Crash m =>
                        mkRun (Panicked m)
                          (s_op (loop_body ctx pollInterval o n t))
                          (s_count (loop_body ctx pollInterval o n t)) []
                    end).
      { intros ctx' H. rewrite wait_loop_pass by exact Hd. cbv zeta.
        rewrite (Hsame ctx' H). reflexivity. }
      destruct (next (loop_body ctx pollInterval o n t)) as [| |err|m] eqn:Hn.
      * destruct (IH _ (s_count (loop_body ctx pollInterval o n t)) (S t) Hcl)
          as (I1 & I2 & I3).
        split; [simpl; apply Forall_app; split; assumption|].
        split; [exact I2|].
        intros ctx' H. rewrite (Hstep ctx' H), (I3 ctx' H). reflexivity.
      * split; [simpl; rewrite app_nil_r; exact Hq|].
        split; [intros ce; apply after_loop_not_ctx_error|].
        intros ctx' H. apply (Hstep ctx' H).
      * split; [simpl; rewrite app_nil_r; exact Hq|].
        split; [|intros ctx' H; apply (Hstep ctx' H)].
        intros ce H. unfold emit in H. cbn [outcome final_op] in H.
        destruct (Hret err eq_refl) as [e ->].
        apply (wait_context_done_msg_not_poll_fail_msg
                 (Id (s_op (loop_body ctx pollInterval o n t)))).
        congruence.
      * split; [simpl; rewrite app_nil_r; exact Hq|].
        split; [intros ce H; discriminate H|].
        intros ctx' H. apply (Hstep ctx' H).
Qed.

(** X12. The loop itself observes the context only in the timed wait.
    When the base interval is not positive and no answer of the client
    carries a header that resolves to a positive interval, the trace of a
    wait holds no timer, no receipt and no stop, and the wait does not
    return the wait-context-done error, even under a context that is done;
    the context can then change the run only through the answers the client
    gives under it: under a context to which the client answers alike, the
    run is the same. *)
Theorem context_unobserved_without_positive_interval
    (fuel : nat) (o : Operation) (ctx : Context) (pollInterval : Z) :
  pollInterval <= 0 ->
  (forall f id t,
     cycle_interval pollInterval (r_header (Get (client o) f ctx id t)) <= 0) ->
  let r := WaitInterval fuel o ctx pollInterval in
  Forall (fun y => is_timer y = false) (trace r)
  /\ (forall ce,
        outcome r
        <> Returned (Some (errWithMessage (CtxErr ce)
                             (wait_context_done_msg (Id (final_op r))))))
  /\ (forall ctx',
        (forall f id t,
           Get (client o) f ctx' id t = Get (client o) f ctx id t) ->
        WaitInterval fuel o ctx' pollInterval = r).
Proof.
  intros Hpi Hh. cbv zeta. unfold WaitInterval, waitInterval.
  apply (wait_loop_without_timed_wait fuel ctx pollInterval (client o));
    auto.
Qed.

Lemma context_unobserved_without_positive_interval_witness :
  let r := WaitInterval 3 Samples.endless (Samples.cancelled_at 0) 0 in
  Forall (fun y => is_timer y = false) (trace r)
  /\ outcome r = OutOfFuel
  /\ WaitInterval 3 Samples.endless Samples.never_done 0 = r.
Proof.
  cbv zeta.
  assert (Hh : forall f id t,
            cycle_interval 0
              (r_header (Get (client Samples.endless) f
                           (Samples.cancelled_at 0) id t)) <= 0).
  { intros f id t. unfold cycle_interval, MD_Get. simpl.
    destruct t; simpl; rewrite lookup_empty; lia. }
  destruct (context_unobserved_without_positive_interval 3 Samples.endless
              (Samples.cancelled_at 0) 0 ltac:(lia) Hh)
    as (H1 & _ & H3).
  split; [exact H1|]. split; [reflexivity|].
  apply H3. intros f id t. reflexivity.
Defined.

(** ** Identifiers that no rule matches *)

Lemma wait_loop_unmatched fuel ctx pollInterval (o : Operation) :
  spec_classify (Id o) = None ->
  Done o = false ->
  forall notFoundCount t,
  let r := wait_loop fuel ctx pollInterval o notFoundCount t in
  count_gets (trace r) = 0%nat
  /\ final_op r = o
  /\ final_count r = notFoundCount
  /\ (outcome r = OutOfFuel
      \/ exists ce,
           outcome r = Returned (Some (errWithMessage (CtxErr ce)
                                         (wait_context_done_msg (Id o)))))
  /\ ((forall t', ctx_done ctx t' = None) -> outcome r = OutOfFuel).
Proof.
  intros Hc Hd.
  assert (HP : forall t, Poll o ctx t = Ret (mkPollOut None o ∅ [])).
  { intros t. rewrite Poll_by_class, Hc. reflexivity. }
  induction fuel as [|fuel IH]; intros n t; cbv zeta.
  - simpl. rewrite Hd. simpl. repeat split; auto.
  - rewrite wait_loop_pass by exact Hd. cbv zeta.
    unfold loop_body. rewrite HP. simpl. rewrite Hd.
    destruct (IH n (S t)) as (I1 & I2 & I3 & I4 & I5).
    destruct (cycle_interval pollInterval ∅ <=? 0); simpl.
    { repeat split; assumption. }
    destruct (ctx_done ctx t) as [ce|] eqn:Hctx; simpl.
    + repeat split; try reflexivity.
      * right. exists ce. reflexivity.
      * intros Hn. rewrite Hn in Hctx. discriminate Hctx.
    + repeat split; assumption.
Qed.

(** X13. A wait on a handle that is not done and whose identifier no rule
    matches never issues a query and never changes the handle; every poll
    returns nil, so the wait can end only by a receipt of [ctx.Done()]
    during a timed wait, and under a context that is never done it is
    still running whatever the fuel. *)
Theorem unmatched_identifier_wait_never_queries
    (fuel : nat) (o : Operation) (ctx : Context) (pollInterval : Z) :
  spec_classify (Id o) = None ->
  Done o = false ->
  let r := WaitInterval fuel o ctx pollInterval in
  count_gets (trace r) = 0%nat
  /\ final_op r = o
  /\ (outcome r = OutOfFuel
      \/ exists ce,
           outcome r = Returned (Some (errWithMessage (CtxErr ce)
                                         (wait_context_done_msg (Id o)))))
  /\ ((forall t, ctx_done ctx t = None) -> outcome r = OutOfFuel).
Proof.
  intros Hc Hd. cbv zeta. unfold WaitInterval, waitInterval.
  destruct (wait_loop_unmatched fuel ctx pollInterval o Hc Hd 0 0)
    as (H1 & H2 & _ & H4 & H5).
  repeat split; assumption.
Qed.

Lemma unmatched_identifier_wait_never_queries_witness :
  let o := Samples.handle "xyz" (Samples.scripted [] Samples.not_found) in
  spec_classify (Id o) = None
  /\ Done o = false
  /\ count_gets (trace (Wait 50 o Samples.never_done)) = 0%nat
  /\ outcome (Wait 50 o Samples.never_done) = OutOfFuel.
Proof.
  cbv zeta. split; [reflexivity|]. split; [reflexivity|].
  destruct (unmatched_identifier_wait_never_queries 50
              (Samples.handle "xyz" (Samples.scripted [] Samples.not_found))
              Samples.never_done DefaultPollInterval eq_refl eq_refl)
    as (H1 & _ & _ & H4).
  split; [exact H1|]. apply H4. intros t. reflexivity.
Defined.

(** ** Where the snapshot comes from *)

Lemma wait_loop_provenance fuel ctx pollInterval (c : Client) (o0 : Operation) :
  forall o notFoundCount t,
  client o = c ->
  o = o0 \/ (exists f id t', r_state (Get c f ctx id t') = Some (proto o)) ->
  let r := wait_loop fuel ctx pollInterval o notFoundCount t in
  client (final_op r) = c
  /\ (final_op r = o0
      \/ exists f id t', r_state (Get c f ctx id t') = Some (proto (final_op r))).
Proof.
  induction fuel as [|fuel IH]; intros o n t Hc Ho; cbv zeta.
  - simpl. destruct (Done o); simpl; split; assumption.
  - destruct (Done o) eqn:Hd.
    + rewrite wait_loop_done by exact Hd. simpl. split; assumption.
    + rewrite wait_loop_pass by exact Hd. cbv zeta.
      assert (Hs : client (s_op (loop_body ctx pollInterval o n t)) = c
                   /\ (s_op (loop_body ctx pollInterval o n t) = o0
                       \/ exists f id t',
                            r_state (Get c f ctx id t')
                            = Some (proto (s_op (loop_body ctx pollInterval o n t))))).
      { unfold loop_body.
        destruct (Poll o ctx t) as [p|m] eqn:HP; simpl; [|split; assumption].
        assert (Hp : client (poll_op p) = c
                     /\ (poll_op p = o0
                         \/ exists f id t',
                              r_state (Get c f ctx id t') = Some (proto (poll_op p)))).
        { destruct (Poll_header_shape _ _ _ _ HP) as [Hcl _].
          split; [congruence|].
          destruct (Poll_snapshot_old_or_queried _ _ _ _ HP)
            as [->|(f & _ & Hst & _)]; [exact Ho|].
          right. exists f, (Id o), t. rewrite <- Hc. exact Hst. }
        destruct (absorb n (poll_err p)) as [[k r]|e]; simpl; [|exact Hp].
        destruct (Done (poll_op p)); simpl; [exact Hp|].
        destruct (cycle_interval pollInterval (poll_header p) <=? 0); simpl;
          [exact Hp|].
        destruct (ctx_done ctx t); simpl; exact Hp. }
      destruct Hs as [Hs1 Hs2].
      destruct (next (loop_body ctx pollInterval o n t)); simpl;
        try (split; assumption).
      apply IH; assumption.
Qed.

(** X14. A wait never makes up state: at the end of every run the handle
    still holds the client it was given, and its snapshot is the initial
    one or a state that some query of that client returned. *)
Theorem wait_snapshot_comes_from_the_client
    (fuel : nat) (o : Operation) (ctx : Context) (pollInterval : Z) :
  let r := WaitInterval fuel o ctx pollInterval in
  client (final_op r) = client o
  /\ (final_op r = o
      \/ exists f id t,
           r_state (Get (client o) f ctx id t) = Some (proto (final_op r))).
Proof.
  cbv zeta. unfold WaitInterval, waitInterval.
  apply (wait_loop_provenance fuel ctx pollInterval (client o) o o 0 0%nat);
    auto.
Qed.

(** ** Not-found failures within the budget *)

Lemma wait_loop_tolerates_not_found (k : nat) :
  forall fuel ctx pollInterval o notFoundCount lo p,
  Done o = false ->
  notFoundCount + Z.of_nat k <= maxNotFoundRetry ->
  (forall t, (lo <= t < lo + k)%nat -> exists e, poll_fails_not_found o ctx t e) ->
  (forall t, (lo <= t < lo + k)%nat -> ctx_done ctx t = None) ->
  Poll o ctx (lo + k) = Ret p -> poll_err p = None -> Done (poll_op p) = true ->
  let r := wait_loop (S k + fuel) ctx pollInterval o notFoundCount lo in
  outcome r
  = Returned (WithMessagef (Error (poll_op p)) (failed_msg (Id (poll_op p))))
  /\ final_op r = poll_op p
  /\ final_count r = notFoundCount + Z.of_nat k
  /\ count_retries (trace r) = k
  /\ (count_gets (trace r) <= S k)%nat.
Proof.
  induction k as [|k IH];
    intros fuel ctx pollInterval o n lo p Hd Hn Hf Hc HP He Hdp; cbv zeta.
  - replace (lo + 0)%nat with lo in HP by lia.
    change (1 + fuel)%nat with (S fuel).
    rewrite wait_loop_pass by exact Hd.
    pose proof (loop_body_count ctx pollInterval o n lo) as (Hcnt & _ & Hg).
    cbv zeta in Hcnt, Hg. revert Hcnt Hg.
    unfold loop_body. rewrite HP, He. simpl. rewrite Hdp. simpl.
    intros Hcnt Hg. rewrite count_gets_app, count_retries_app.
    unfold count_gets at 2. unfold count_retries at 2. simpl.
    repeat split; lia.
  - destruct (Hf lo ltac:(lia)) as [e Hfe].
    change (S (S k) + fuel)%nat with (S (S k + fuel)).
    destruct (wait_loop_absorbs (S k + fuel) ctx pollInterval o n lo e
                Hd Hfe ltac:(lia) (Hc lo ltac:(lia)))
      as (evs & E & G & R).
    rewrite E.
    specialize (IH fuel ctx pollInterval o (n + 1) (S lo) p Hd ltac:(lia)).
    replace (S lo + k)%nat with (lo + S k)%nat in IH by lia.
    destruct IH as (I1 & I2 & I3 & I4 & I5); try assumption.
    + intros t Ht. apply Hf. lia.
    + intros t Ht. apply Hc. lia.
    + unfold emit. cbn [outcome final_op final_count trace].
      rewrite count_gets_app, count_retries_app, G, R.
      repeat split; try assumption; lia.
Qed.

(** X15. Not-found failures within the budget are tolerated: when the
    first k polls, k at most 3, fail with a not-found error, the context is
    not done during the waits after them, and poll k succeeds with a done
    state, the wait ends with the result of line 184 for that state, having
    absorbed exactly k failures. *)
Theorem not_found_failures_within_budget_are_tolerated
    (k fuel : nat) (o : Operation) (ctx : Context) (pollInterval : Z)
    (p : PollOut) :
  Done o = false ->
  (k <= 3)%nat ->
  (forall t, (t < k)%nat -> exists e, poll_fails_not_found o ctx t e) ->
  (forall t, (t < k)%nat -> ctx_done ctx t = None) ->
  Poll o ctx k = Ret p -> poll_err p = None -> Done (poll_op p) = true ->
  let r := WaitInterval (S k + fuel) o ctx pollInterval in
  outcome r
  = Returned (WithMessagef (Error (poll_op p)) (failed_msg (Id (poll_op p))))
  /\ final_op r = poll_op p
  /\ final_count r = Z.of_nat k
  /\ count_retries (trace r) = k
  /\ (count_gets (trace r) <= S k)%nat.
Proof.
  intros Hd Hk Hf Hc HP He Hdp. unfold WaitInterval, waitInterval.
  apply (wait_loop_tolerates_not_found k fuel ctx pollInterval o 0 0%nat p);
    try assumption.
  - unfold maxNotFoundRetry. lia.
  - intros t Ht. apply Hf. lia.
  - intros t Ht. apply Hc. lia.
Qed.

Lemma not_found_failures_within_budget_are_tolerated_witness :
  let o := Samples.handle "cho1"
             (Samples.scripted
                [Samples.not_found; Samples.not_found; Samples.not_found;
                 Samples.done "cho1"]
                Samples.not_found) in
  let r := Wait 4 o Samples.never_done in
  Done o = false
  /\ outcome r = Returned None
  /\ final_count r = 3
  /\ count_retries (trace r) = 3%nat.
Proof.
  cbv zeta. split; [reflexivity|].
  assert (Hf : forall t, (t < 3)%nat ->
            exists e,
              poll_fails_not_found
                (Samples.handle "cho1"
                   (Samples.scripted
                      [Samples.not_found; Samples.not_found; Samples.not_found;
                       Samples.done "cho1"]
                      Samples.not_found)) Samples.never_done t e).
  { intros t Ht. exists (Samples.not_found_from_poll "cho1").
    destruct t as [|[|[|t]]]; [| | |lia];
      (eexists; split; [reflexivity|]; split; reflexivity). }
  destruct (not_found_failures_within_budget_are_tolerated 3 0
              (Samples.handle "cho1"
                 (Samples.scripted
                    [Samples.not_found; Samples.not_found; Samples.not_found;
                     Samples.done "cho1"]
                    Samples.not_found))
              Samples.never_done DefaultPollInterval
              (mkPollOut None
                 (mkOperation (Samples.snapshot "cho1" Operation_STATUS_DONE None)
                    (Samples.scripted
                       [Samples.not_found; Samples.not_found; Samples.not_found;
                        Samples.done "cho1"]
                       Samples.not_found))
                 ∅ [EvGet Clickhouse "cho1"])
              eq_refl ltac:(lia) Hf (fun t _ => eq_refl)
              eq_refl eq_refl eq_refl)
    as (H1 & _ & H3 & H4 & _).
  split; [exact H1|]. split; [exact H3|exact H4].
Defined.

(** ** Further properties of cancellation and of the budget *)

(** X16. A receipt of [ctx.Done()] ends the run: in every run of a wait it
    comes right after the creation of a timer, is followed by the stop of
    that timer and by nothing else, and the run returns the error of the
    context under the wait-context-done message. *)
Theorem receipt_of_ctx_done_ends_run
    (fuel : nat) (o : Operation) (ctx : Context) (pollInterval : Z)
    (pre post : list Event) (ce : ctx_error) :
  let r := WaitInterval fuel o ctx pollInterval in
  trace r = (pre ++ EvCtxDone ce :: post)%list ->
  post = [EvStop]
  /\ (exists before d, pre = (before ++ [EvNewTimer d])%list)
  /\ outcome r
     = Returned (Some (errWithMessage (CtxErr ce)
                         (wait_context_done_msg (Id (final_op r))))).
Proof.
  cbv zeta. unfold WaitInterval, waitInterval. intros H.
  exact (wait_loop_ctx_done fuel ctx pollInterval o 0 0 pre ce post H).
Qed.

Lemma receipt_of_ctx_done_ends_run_witness :
  let r := WaitInterval 9 Samples.endless (Samples.cancelled_at 1) Second in
  trace r
  = ([EvGet Kafka "kfo2"; EvNewTimer Second; EvTimerFired;
      EvGet Kafka "kfo2"; EvNewTimer Second]
     ++ EvCtxDone Canceled :: [EvStop])%list
  /\ outcome r
     = Returned (Some (errWithMessage (CtxErr Canceled)
                         (wait_context_done_msg "kfo2"))).
Proof.
  cbv zeta. split; [reflexivity|].
  exact (proj2 (proj2
           (receipt_of_ctx_done_ends_run 9 Samples.endless
              (Samples.cancelled_at 1) Second
              [EvGet Kafka "kfo2"; EvNewTimer Second; EvTimerFired;
               EvGet Kafka "kfo2"; EvNewTimer Second]
              [EvStop] Canceled eq_refl))).
Defined.

(** X17. The budget runs out anywhere in a wait.  When a wait has reached
    pass [t0] with [n'] failures absorbed and the handle not done, and the
    next [m + 1] polls, [m] being [3 - n'], each fail with a not-found
    error (the context not being done in the waits between them), the first
    [m] are absorbed and the last one ends the wait: it is returned under
    the poll-fail message, the handle unchanged, and no query follows.
    So at most four not-found failures in a row are needed. *)
Theorem not_found_failures_exhaust_budget
    (t0 m fuel : nat) (o : Operation) (ctx : Context) (pollInterval : Z)
    (o' : Operation) (n' : Z) (pre : list Event) (e : error) :
  passes t0 ctx pollInterval o 0 0 = Some (o', n', pre) ->
  Done o' = false ->
  n' + Z.of_nat m = maxNotFoundRetry ->
  (forall t, (t0 <= t < t0 + m)%nat ->
     exists e', poll_fails_not_found o' ctx t e') ->
  poll_fails_not_found o' ctx (t0 + m) e ->
  (forall t, (t0 <= t < t0 + m)%nat -> ctx_done ctx t = None) ->
  let r := WaitInterval (t0 + S m + fuel) o ctx pollInterval in
  outcome r = Returned (Some (errWithMessage e (poll_fail_msg (Id o'))))
  /\ final_op r = o'
  /\ final_count r = maxNotFoundRetry
  /\ count_gets (trace r) = (count_gets pre + S m)%nat
  /\ count_retries (trace r) = (count_retries pre + m)%nat
  /\ (m <= 3)%nat.
Proof.
  intros Hreach Hd Hn Hf Hl Hc. cbv zeta.
  destruct (passes_count t0 _ _ _ _ _ _ _ _ Hreach) as [Hlo _].
  unfold WaitInterval, waitInterval.
  replace (t0 + S m + fuel)%nat with (t0 + (S m + fuel))%nat by lia.
  rewrite (wait_loop_after_passes t0 _ _ _ _ _ _ _ _ (S m + fuel) Hreach).
  replace (t0 + 0)%nat with t0 by lia.
  destruct (wait_loop_exhausts_budget m fuel ctx pollInterval o' n' t0 e
              Hd Hn Hf Hl Hc) as (I1 & I2 & I3 & I4 & I5).
  unfold emit. cbn [outcome final_op final_count trace].
  rewrite count_gets_app, count_retries_app, I4, I5.
  unfold maxNotFoundRetry in Hn.
  repeat split; try assumption. lia.
Qed.

Lemma not_found_failures_exhaust_budget_witness :
  let o := Samples.lost_later in
  let ctx := Samples.never_done in
  let r := Wait 5 o ctx in
  passes 1 ctx DefaultPollInterval o 0 0
  = Some (o, 0, [EvGet Kafka "kfo2"; EvNewTimer Second; EvTimerFired])
  /\ outcome r
     = Returned (Some (errWithMessage (Samples.not_found_from_poll "kfo2")
                         (poll_fail_msg "kfo2")))
  /\ count_gets (trace r) = 5%nat.
Proof.
  cbv zeta. split; [reflexivity|].
  assert (Hf : forall t, (1 <= t)%nat ->
            poll_fails_not_found Samples.lost_later Samples.never_done t
              (Samples.not_found_from_poll "kfo2")).
  { intros t Ht. destruct t as [|t]; [lia|].
    eexists. split; [unfold Poll; simpl; destruct t; reflexivity|].
    split; reflexivity. }
  destruct (not_found_failures_exhaust_budget 1 3 0 Samples.lost_later
              Samples.never_done DefaultPollInterval Samples.lost_later 0
              [EvGet Kafka "kfo2"; EvNewTimer Second; EvTimerFired]
              (Samples.not_found_from_poll "kfo2")
              eq_refl eq_refl eq_refl
              (fun t Ht => ex_intro _ _ (Hf t (proj1 Ht)))
              (Hf 4%nat ltac:(lia))
              (fun t _ => eq_refl))
    as (H1 & _ & _ & H4 & _).
  split; [exact H1|exact H4].
Defined.
